(** * File Investigator dashboard: shared document state and its handlers

    A shallow embedding of the client-side logic of the dashboard:
    - [src/types/investigator.ts]: the data model;
    - [src/app/page.tsx]: the page, owner of the shared state and of the
      upload / copy / post / edit handlers;
    - [src/components/file-upload.tsx]: file intake and its validation;
    - [src/components/dashboard-panels.tsx]: the tweets panel (edit mode);
    - the tool cards (proposal card, default tool card).

    React components are modelled as state machines: the values kept by
    [useState] / [useRef] / [useCoAgent] form a record, every event handler
    is a function on that record, and a child component reports the calls
    it makes to its props as a list of outputs that the parent interprets
    the way the JSX wires them. *)

From stdpp Require Import base list strings pretty.
From Stdlib Require Import Ascii String NArith Lia.

Local Open Scope string_scope.
Set Warnings "-register-all".

(** ** src/types/investigator.ts *)

Module UploadedFile.
(** [base64] is what [dataUrl.split(",")[1]] evaluates to: [None] stands
    for JavaScript's [undefined], which that expression yields when the
    data URL holds no comma. *)
Record t := mk { name : string; base64 : option string; mimeType : string }.
End UploadedFile.

Module Finding.
Inductive Severity := low | medium | high | critical.
Record t := mk
  { id : string; title : string; description : string; severity : Severity }.
End Finding.

Module RedactedItem.
Record t := mk
  { id : string; location : string; speculation : string; confidence : Z }.
End RedactedItem.

Module Tweet.
Record t := mk { id : string; content : string; posted : bool }.
End Tweet.

Inductive AnalysisStatus := idle | proposed | analyzing | complete.

Module FileInvestigatorState.
Record t := mk
  { uploadedFile : option UploadedFile.t;
    findings : list Finding.t;
    redactedContent : list RedactedItem.t;
    tweets : list Tweet.t;
    summary : option string;
    analysisStatus : AnalysisStatus }.
End FileInvestigatorState.

Definition INITIAL_STATE : FileInvestigatorState.t :=
  {| FileInvestigatorState.uploadedFile := None;
     FileInvestigatorState.findings := [];
     FileInvestigatorState.redactedContent := [];
     FileInvestigatorState.tweets := [];
     FileInvestigatorState.summary := None;
     FileInvestigatorState.analysisStatus := idle |}.

(** ** src/app/page.tsx: the page and its handlers *)

Module Page.
Import FileInvestigatorState.

(** The only callback ever handed to [setTimeout]:
    [() => setToastMessage(null)]. *)
Inductive TimerCallback := clearToast.

(** What the page holds: the co-agent state ([useCoAgent]), the ref that
    mirrors it ([stateRef.current]), the toast ([useState]), and the two
    browser facilities the handlers touch: the clipboard (texts written,
    oldest first) and the pending timers (callback and delay in ms).
    [writes] is the record of the calls of [setState]: the argument of
    each call, oldest first. Every call is a write of the whole state that
    goes over the bridge, so a handler that calls [setState] twice leaves
    two entries. *)
Record t := mk
  { state : FileInvestigatorState.t;
    stateRef_current : FileInvestigatorState.t;
    toastMessage : option string;
    clipboard : list string;
    timers : list (TimerCallback * N);
    writes : list FileInvestigatorState.t }.

(** An effectful statement is a page transformer; [a >>> b] runs [a]
    then [b]. *)
Definition Eff := t -> t.
Definition seq (a b : Eff) : Eff := fun p => b (a p).
Notation "a >>> b" := (seq a b) (at level 61, left associativity).

(** [setState(next)] of [useCoAgent]: the whole state is replaced, and
    the call is recorded. *)
Definition setState (next : FileInvestigatorState.t) : Eff := fun p =>
  {| state := next; stateRef_current := stateRef_current p;
     toastMessage := toastMessage p; clipboard := clipboard p;
     timers := timers p; writes := writes p ++ [next] |}.

Definition setToastMessage (m : option string) : Eff := fun p =>
  {| state := state p; stateRef_current := stateRef_current p;
     toastMessage := m; clipboard := clipboard p; timers := timers p;
     writes := writes p |}.

Definition setTimeout (cb : TimerCallback) (ms : N) : Eff := fun p =>
  {| state := state p; stateRef_current := stateRef_current p;
     toastMessage := toastMessage p; clipboard := clipboard p;
     timers := timers p ++ [(cb, ms)]; writes := writes p |}.

Definition clipboard_writeText (content : string) : Eff := fun p =>
  {| state := state p; stateRef_current := stateRef_current p;
     toastMessage := toastMessage p; clipboard := clipboard p ++ [content];
     timers := timers p; writes := writes p |}.

(** [useEffect(() => { stateRef.current = state }, [state])], run after
    each render. *)
Definition useEffect_stateRef : Eff := fun p =>
  {| state := state p; stateRef_current := state p;
     toastMessage := toastMessage p; clipboard := clipboard p;
     timers := timers p; writes := writes p |}.

(** A timer fires: its callback runs. *)
Definition runTimer (cb : TimerCallback) : Eff :=
  match cb with clearToast => setToastMessage None end.

(** [handleFileUpload]: reads the rendered [state], spreads it and
    overrides the six fields below. *)
Definition handleFileUpload (file : option UploadedFile.t) : Eff := fun p =>
  setState
    {| uploadedFile := file;
       analysisStatus := match file with Some _ => idle | None => idle end;
       findings := [];
       redactedContent := [];
       tweets := [];
       summary := None |} p.

Definition handleCopyTweet (content : string) : Eff :=
  clipboard_writeText content >>>
  setToastMessage (Some "Tweet copied! Handle with care...") >>>
  setTimeout clearToast 2000.

(** The arrow functions mapped over the tweets ([l.map(f)] is [f <$> l]). *)
Definition markPosted (id : string) (t : Tweet.t) : Tweet.t :=
  if decide (Tweet.id t = id)
  then {| Tweet.id := Tweet.id t; Tweet.content := Tweet.content t;
          Tweet.posted := true |}
  else t.

Definition replaceContent (id newContent : string) (t : Tweet.t) : Tweet.t :=
  if decide (Tweet.id t = id)
  then {| Tweet.id := Tweet.id t; Tweet.content := newContent;
          Tweet.posted := Tweet.posted t |}
  else t.

(** [{...stateRef.current, tweets: ts}] *)
Definition withTweets (s : FileInvestigatorState.t) (ts : list Tweet.t)
  : FileInvestigatorState.t :=
  {| uploadedFile := uploadedFile s; findings := findings s;
     redactedContent := redactedContent s; tweets := ts;
     summary := summary s; analysisStatus := analysisStatus s |}.

Definition handlePostTweet (id : string) : Eff :=
  (fun p =>
     setState (withTweets (stateRef_current p)
                 (markPosted id <$> tweets (stateRef_current p))) p) >>>
  setToastMessage (Some "Tweet posted! The truth is out there.") >>>
  setTimeout clearToast 2000.

Definition handleEditTweet (id newContent : string) : Eff := fun p =>
  setState (withTweets (stateRef_current p)
              (replaceContent id newContent <$> tweets (stateRef_current p)))
    p.

End Page.

(** ** src/components/file-upload.tsx: file intake *)

Module FileUpload.
(** The browser's [File], as far as the component reads it. Its bytes
    reach the component only as the data URL handed to [reader.onload]. *)
Record File := mkFile { name : string; type : string; size : N }.

Definition LOADING_MESSAGES : list string :=
  [ "Checking flight logs...";
    "Cross-referencing guest lists...";
    "Scanning visitor records...";
    "Verifying document authenticity...";
    "Looking for suspicious black bars..." ].

(** The three [useState] cells. *)
Record t := mk
  { isDragging : bool; isLoading : bool; loadingMessage : string }.

(** What a handler does outside the component: a blocking alert, a read
    request handed to a [FileReader], a call of the [onFileUpload] prop. *)
Inductive Out :=
| alert (message : string)
| readAsDataURL (file : File)
| onFileUpload (file : option UploadedFile.t).

Definition setIsDragging (b : bool) (c : t) : t :=
  {| isDragging := b; isLoading := isLoading c;
     loadingMessage := loadingMessage c |}.

Definition setIsLoading (b : bool) (c : t) : t :=
  {| isDragging := isDragging c; isLoading := b;
     loadingMessage := loadingMessage c |}.

Definition setLoadingMessage (m : string) (c : t) : t :=
  {| isDragging := isDragging c; isLoading := isLoading c;
     loadingMessage := m |}.

(** [s.split(sep)] for a one-character separator. *)
Fixpoint split (sep : ascii) (s : string) : list string :=
  match s with
  | EmptyString => [EmptyString]
  | String c rest =>
      if decide (c = sep) then EmptyString :: split sep rest
      else match split sep rest with
           | h :: tl => String c h :: tl
           | [] => [String c EmptyString]
           end
  end.

Definition MAX_SIZE : N := 10 * 1024 * 1024.

(** [handleFile]. [k] is the value of
    [Math.floor(Math.random() * LOADING_MESSAGES.length)], an index into
    the table since [Math.random()] lies in [0, 1); the default of the
    lookup is never reached for such an index. *)
Definition handleFile (k : nat) (file : File) (c : t) : t * list Out :=
  if decide (type file <> "application/pdf") then
    (c, [alert "Please upload a PDF file"])
  else if (MAX_SIZE <? size file)%N then
    (c, [alert "File too large. Maximum size is 10MB."])
  else
    (setLoadingMessage (default "" (LOADING_MESSAGES !! k))
       (setIsLoading true c),
     [readAsDataURL file]).

(** [reader.onload], for the reader that [handleFile file] started;
    [result] is [e.target.result], the data URL. *)
Definition reader_onload (file : File) (result : string) (c : t)
  : t * list Out :=
  let base64 := split ","%char result !! 1%nat in
  (setIsLoading false c,
   [onFileUpload
      (Some {| UploadedFile.name := name file;
               UploadedFile.base64 := base64;
               UploadedFile.mimeType := type file |})]).

(** [handleDrop], on [e.dataTransfer.files]. *)
Definition handleDrop (k : nat) (files : list File) (c : t) : t * list Out :=
  let c := setIsDragging false c in
  match files !! 0%nat with
  | Some file => handleFile k file c
  | None => (c, [])
  end.

(** [onChange] of the hidden file input, on [e.target.files]. *)
Definition input_onChange (k : nat) (files : list File) (c : t)
  : t * list Out :=
  match files !! 0%nat with
  | Some file => handleFile k file c
  | None => (c, [])
  end.

Definition handleDragOver (c : t) : t * list Out := (setIsDragging true c, []).
Definition handleDragLeave (c : t) : t * list Out := (setIsDragging false c, []).

(** [onClick] of the button shown next to the current file. *)
Definition clear_onClick (c : t) : t * list Out := (c, [onFileUpload None]).

(** How intake ended, read off the outputs of a handler: an alert means
    the file was turned down, no alert that it went on to the reader. *)
Inductive Outcome := accepted | rejected (message : string).

Fixpoint outcome (outs : list Out) : Outcome :=
  match outs with
  | [] => accepted
  | alert m :: _ => rejected m
  | _ :: rest => outcome rest
  end.
End FileUpload.

(** ** src/components/dashboard-panels.tsx: the tweets panel *)

Module TweetsPanel.
(** The two [useState] cells of the panel: local, never sent anywhere. *)
Record t := mk { editingId : option string; editContent : string }.

(** Calls of the props [onCopy], [onPost], [onEdit]. *)
Inductive Out :=
| onCopy (content : string)
| onPost (id : string)
| onEdit (id newContent : string).

Definition setEditingId (i : option string) (c : t) : t :=
  {| editingId := i; editContent := editContent c |}.

Definition setEditContent (v : string) (c : t) : t :=
  {| editingId := editingId c; editContent := v |}.

Definition startEdit (tweet : Tweet.t) (c : t) : t * list Out :=
  (setEditContent (Tweet.content tweet) (setEditingId (Some (Tweet.id tweet)) c),
   []).

Definition saveEdit (id : string) (c : t) : t * list Out :=
  (setEditingId None c, [onEdit id (editContent c)]).

Definition cancelEdit (c : t) : t * list Out :=
  (setEditContent "" (setEditingId None c), []).

(** [onChange] of the textarea: [setEditContent(e.target.value)]. *)
Definition textarea_onChange (value : string) (c : t) : t * list Out :=
  (setEditContent value c, []).

(** [onClick] of the Copy and Post buttons of a tweet. *)
Definition copy_onClick (tweet : Tweet.t) (c : t) : t * list Out :=
  (c, [onCopy (Tweet.content tweet)]).

Definition post_onClick (tweet : Tweet.t) (c : t) : t * list Out :=
  (c, [onPost (Tweet.id tweet)]).
End TweetsPanel.

(** ** What a component renders

    A rendered tree, as far as the cards need it: text, an icon (class and
    path data), and an element with its tag, class, [onClick] handler if
    any, and children. [A] is the type of the handlers a tree can bind. *)

Module React.
Inductive Node (A : Type) : Type :=
| text (s : string)
| svg (className d : string)
| elem (tag className : string) (onClick : option A)
    (children : list (Node A)).
Arguments text {A} s.
Arguments svg {A} className d.
Arguments elem {A} tag className onClick children.

(** The handlers bound in a tree, in document order: what a user can
    click. *)
Fixpoint handlers {A} (n : Node A) : list A :=
  match n with
  | text _ | svg _ _ => []
  | elem _ _ h children =>
      match h with Some a => [a] | None => [] end
      ++ flat_map handlers children
  end.

(** The texts shown by a tree, in document order. *)
Fixpoint texts {A} (n : Node A) : list string :=
  match n with
  | text s => [s]
  | svg _ _ => []
  | elem _ _ _ children => flat_map texts children
  end.

(** The classes carried by a tree, in document order. *)
Fixpoint classes {A} (n : Node A) : list string :=
  match n with
  | text _ => []
  | svg c _ => [c]
  | elem _ c _ children => c :: flat_map classes children
  end.

(** [cond && node] among the children of an element. *)
Definition when {A} (cond : bool) (n : Node A) : list (Node A) :=
  if cond then [n] else [].
End React.

(** ** The tool cards *)

Module ToolCards.
Import React.

(** ["inProgress" | "executing" | "complete"], and the string a status
    is at run time (what [{status}] prints). *)
Inductive Status := inProgress | executing | complete.

Definition Status_string (s : Status) : string :=
  match s with
  | inProgress => "inProgress"
  | executing => "executing"
  | complete => "complete"
  end.

(** *** AnalysisProposalCard *)
Module AnalysisProposalCard.
(** [onApprove] and [onDeny] are optional props: the booleans tell
    whether the parent passed them. *)
Record Props := mkProps
  { fileName : string;
    proposedAnalyses : list string;
    status : Status;
    onApprove : bool;
    onDeny : bool }.

Inductive Response := approved | denied.

(** [useState<"approved" | "denied" | null>(null)] *)
Definition t := option Response.
Definition initial : t := None.

(** Calls of the optional props. *)
Inductive Out := call_onApprove | call_onDeny.

(** The handlers the card binds to its buttons. *)
Inductive Handler := handleApprove_ | handleDeny_.

Definition handleApprove (props : Props) (responded : t) : t * list Out :=
  (Some approved, if onApprove props then [call_onApprove] else []).

Definition handleDeny (props : Props) (responded : t) : t * list Out :=
  (Some denied, if onDeny props then [call_onDeny] else []).

Definition run (h : Handler) : Props -> t -> t * list Out :=
  match h with
  | handleApprove_ => handleApprove
  | handleDeny_ => handleDeny
  end.

(** The last child of the card: the ternary on [responded]. *)
Definition responseArea (responded : t) : Node Handler :=
  match responded with
  | Some approved =>
      elem "div" "flex items-center gap-2 text-green-600" None
        [ svg "w-5 h-5" "M5 13l4 4L19 7";
          elem "span" "font-medium" None [text "Investigation approved"] ]
  | Some denied =>
      elem "div" "flex items-center gap-2 text-red-600" None
        [ svg "w-5 h-5" "M6 18L18 6M6 6l12 12";
          elem "span" "font-medium" None [text "Investigation declined"] ]
  | None =>
      elem "div" "flex gap-2" None
        [ elem "button"
            "flex-1 py-2.5 bg-blue-600 hover:bg-blue-700 text-white font-medium rounded-lg transition-colors flex items-center justify-center gap-2"
            (Some handleApprove_)
            [ svg "w-4 h-4" "M21 21l-6-6m2-5a7 7 0 11-14 0 7 7 0 0114 0z";
              text "Let's Investigate" ];
          elem "button"
            "px-4 py-2.5 bg-slate-200 hover:bg-slate-300 text-slate-700 font-medium rounded-lg transition-colors"
            (Some handleDeny_)
            [ text "Skip" ] ]
  end.

Definition render (props : Props) (responded : t) : Node Handler :=
  elem "div"
    "bg-gradient-to-br from-blue-50 to-indigo-50 rounded-xl p-5 border border-blue-200 my-4 max-w-md"
    None
    [ elem "div" "flex items-center gap-2 mb-3" None
        [ elem "div"
            "w-8 h-8 bg-blue-600 rounded-lg flex items-center justify-center"
            None
            [ svg "w-4 h-4 text-white"
                "M9 5H7a2 2 0 00-2 2v12a2 2 0 002 2h10a2 2 0 002-2V7a2 2 0 00-2-2h-2M9 5a2 2 0 002 2h2a2 2 0 002-2M9 5a2 2 0 012-2h2a2 2 0 012 2" ];
          elem "h3" "font-semibold text-slate-900" None
            [ text "Investigation Proposal" ] ];
      elem "p" "text-sm text-slate-600 mb-3" None
        [ text "Ready to analyze ";
          elem "span" "font-medium text-slate-900" None
            [ text (fileName props) ] ];
      elem "div" "bg-white/50 rounded-lg p-3 mb-4" None
        [ elem "p" "text-xs font-medium text-slate-500 mb-2" None
            [ text "Proposed analyses:" ];
          elem "ul" "space-y-1" None
            (map (fun analysis =>
                    elem "li" "text-sm text-slate-700 flex items-center gap-2"
                      None
                      [ elem "span" "w-1.5 h-1.5 bg-blue-500 rounded-full"
                          None [];
                        text analysis ])
               (proposedAnalyses props)) ];
      responseArea responded ].

(** One interaction of the user with the card: a click on the [n]-th
    clickable element of what is on screen. A click can only reach a
    handler that the current tree binds. *)
Definition click (props : Props) (n : nat) (responded : t) : t * list Out :=
  match handlers (render props responded) !! n with
  | Some h => run h props responded
  | None => (responded, [])
  end.

(** A sequence of interactions; the card re-renders after each. The
    calls of the props are collected in order. *)
Fixpoint interact (props : Props) (clicks : list nat) (responded : t)
  : t * list Out :=
  match clicks with
  | [] => (responded, [])
  | n :: rest =>
      let '(r1, o1) := click props n responded in
      let '(r2, o2) := interact props rest r1 in
      (r2, (o1 ++ o2)%list)
  end.
End AnalysisProposalCard.

(** *** DefaultToolCard *)

(** A value of type [unknown], as far as the card inspects it: it is
    [undefined], [null], or something else. *)
Inductive unknown (V : Type) : Type :=
| undefined
| null
| value (v : V).
Arguments undefined {V}.
Arguments null {V}.
Arguments value {V} v.

Module DefaultToolCard.
Section Card.
(** The JavaScript values other than [undefined] and [null], and
    [JSON.stringify(v, null, 2)] on them. *)
Variable V : Type.
Variable JSON_stringify : V -> string.

(** [result] is an optional prop: left out, it is [undefined]. *)
Record Props := mkProps
  { name : string;
    status : Status;
    args : V;
    result : unknown V }.

(** [useState(false)] *)
Definition t := bool.
Definition initial : t := false.

(** The one handler: [() => setExpanded(!expanded)]. *)
Inductive Handler := toggle.

Definition run (h : Handler) (expanded : t) : t :=
  match h with toggle => negb expanded end.

Definition render (props : Props) (expanded : t) : Node Handler :=
  elem "div"
    "bg-slate-100 rounded-lg p-4 my-3 max-w-md border border-slate-200"
    None
    ([ elem "div" "flex items-center justify-between" None
         [ elem "div" "flex items-center gap-2" None
             [ elem "span" "font-mono text-sm text-slate-700" None
                 [ text (name props) ];
               elem "span"
                 ("text-xs px-2 py-0.5 rounded-full " ++
                  match status props with
                  | complete => "bg-green-100 text-green-700"
                  | _ => "bg-blue-100 text-blue-700"
                  end)
                 None
                 [ text (Status_string (status props)) ] ];
           elem "button" "text-slate-400 hover:text-slate-600"
             (Some toggle)
             [ svg ("w-4 h-4 transition-transform " ++
                    if expanded then "rotate-180" else "")
                 "M19 9l-7 7-7-7" ] ] ]
     ++ when expanded
          (elem "div" "mt-3 space-y-2" None
             ([ elem "div" "" None
                  [ elem "p" "text-xs text-slate-500 mb-1" None
                      [ text "Arguments:" ];
                    elem "pre" "text-xs bg-white p-2 rounded overflow-auto"
                      None
                      [ text (JSON_stringify (args props)) ] ] ]
              ++ match result props with
                 | undefined | null => []
                 | value v =>
                     [ elem "div" "" None
                         [ elem "p" "text-xs text-slate-500 mb-1" None
                             [ text "Result:" ];
                           elem "pre"
                             "text-xs bg-white p-2 rounded overflow-auto"
                             None
                             [ text (JSON_stringify v) ] ] ]
                 end)))%list.

(** A click on the [n]-th clickable element of what is on screen. *)
Definition click (props : Props) (n : nat) (expanded : t) : t :=
  match handlers (render props expanded) !! n with
  | Some h => run h expanded
  | None => expanded
  end.
End Card.
Arguments mkProps {V} name status args result.
Arguments name {V} p.
Arguments status {V} p.
Arguments args {V} p.
Arguments result {V} p.
Arguments render {V} JSON_stringify props expanded.
Arguments click {V} JSON_stringify props n expanded.
End DefaultToolCard.
End ToolCards.

(** ** src/app/page.tsx: what the page wires together *)

Module App.
(** A tool-call event as the chat runtime hands it to a renderer. *)
Record ToolCall (V : Type) := mkToolCall
  { name : string;
    status : ToolCards.Status;
    args : V;
    result : ToolCards.unknown V }.
Arguments mkToolCall {V} name status args result.
Arguments name {V} t.
Arguments status {V} t.
Arguments args {V} t.
Arguments result {V} t.

(** The [render] given to [useDefaultTool]: every prop is passed on. *)
Definition useDefaultTool_render {V} (props : ToolCall V)
  : ToolCards.DefaultToolCard.Props V :=
  ToolCards.DefaultToolCard.mkProps
    (name props) (status props) (args props) (result props).

(** The page with its two stateful children, the alerts shown so far
    and the files a [FileReader] is still reading. *)
Record t := mk
  { page : Page.t;
    fileUpload : FileUpload.t;
    tweetsPanel : TweetsPanel.t;
    alerts : list string;
    readers : list FileUpload.File }.

Definition onPage (f : Page.Eff) (a : t) : t :=
  {| page := f (page a); fileUpload := fileUpload a;
     tweetsPanel := tweetsPanel a; alerts := alerts a;
     readers := readers a |}.

(** [<FileUpload onFileUpload={handleFileUpload} ... />] *)
Definition fileUpload_out (a : t) (o : FileUpload.Out) : t :=
  match o with
  | FileUpload.alert m =>
      {| page := page a; fileUpload := fileUpload a;
         tweetsPanel := tweetsPanel a; alerts := alerts a ++ [m];
         readers := readers a |}
  | FileUpload.readAsDataURL f =>
      {| page := page a; fileUpload := fileUpload a;
         tweetsPanel := tweetsPanel a; alerts := alerts a;
         readers := readers a ++ [f] |}
  | FileUpload.onFileUpload u => onPage (Page.handleFileUpload u) a
  end.

(** [<TweetsPanel onCopy={handleCopyTweet} onPost={handlePostTweet}
    onEdit={handleEditTweet} ... />] *)
Definition tweetsPanel_out (a : t) (o : TweetsPanel.Out) : t :=
  match o with
  | TweetsPanel.onCopy content => onPage (Page.handleCopyTweet content) a
  | TweetsPanel.onPost id => onPage (Page.handlePostTweet id) a
  | TweetsPanel.onEdit id newContent =>
      onPage (Page.handleEditTweet id newContent) a
  end.

(** A handler of a child runs on the child's cells; the calls it makes
    to its props run on the page. *)
Definition inFileUpload
    (h : FileUpload.t -> FileUpload.t * list FileUpload.Out) (a : t) : t :=
  let '(c, outs) := h (fileUpload a) in
  foldl fileUpload_out
    {| page := page a; fileUpload := c; tweetsPanel := tweetsPanel a;
       alerts := alerts a; readers := readers a |}
    outs.

Definition inTweetsPanel
    (h : TweetsPanel.t -> TweetsPanel.t * list TweetsPanel.Out) (a : t) : t :=
  let '(c, outs) := h (tweetsPanel a) in
  foldl tweetsPanel_out
    {| page := page a; fileUpload := fileUpload a; tweetsPanel := c;
       alerts := alerts a; readers := readers a |}
    outs.

(** The reader of the [i]-th pending file is done: it leaves the pending
    list and its [onload] runs. *)
Definition readerLoads (i : nat) (result : string) (a : t) : t :=
  match readers a !! i with
  | Some file =>
      inFileUpload (FileUpload.reader_onload file result)
        {| page := page a; fileUpload := fileUpload a;
           tweetsPanel := tweetsPanel a; alerts := alerts a;
           readers := delete i (readers a) |}
  | None => a
  end.

(** The [i]-th pending timer fires. *)
Definition timerFires (i : nat) (a : t) : t :=
  match Page.timers (page a) !! i with
  | Some (cb, _) =>
      onPage (fun p =>
                Page.runTimer cb
                  {| Page.state := Page.state p;
                     Page.stateRef_current := Page.stateRef_current p;
                     Page.toastMessage := Page.toastMessage p;
                     Page.clipboard := Page.clipboard p;
                     Page.timers := delete i (Page.timers p);
                     Page.writes := Page.writes p |}) a
  | None => a
  end.

(** What can happen to the dashboard from the user's side and from the
    browser's. The random index of the loading message comes with the
    events that may start a read. *)
Inductive Event :=
| drop (k : nat) (files : list FileUpload.File)
| pick (k : nat) (files : list FileUpload.File)
| dragOver
| dragLeave
| clear
| loaded (i : nat) (result : string)
| edit (tweet : Tweet.t)
| typing (value : string)
| cancel
| save (id : string)
| copy (tweet : Tweet.t)
| post (tweet : Tweet.t)
| fires (i : nat).

Definition handle (e : Event) : t -> t :=
  match e with
  | drop k files => inFileUpload (FileUpload.handleDrop k files)
  | pick k files => inFileUpload (FileUpload.input_onChange k files)
  | dragOver => inFileUpload FileUpload.handleDragOver
  | dragLeave => inFileUpload FileUpload.handleDragLeave
  | clear => inFileUpload FileUpload.clear_onClick
  | loaded i result => readerLoads i result
  | edit tweet => inTweetsPanel (TweetsPanel.startEdit tweet)
  | typing value => inTweetsPanel (TweetsPanel.textarea_onChange value)
  | cancel => inTweetsPanel TweetsPanel.cancelEdit
  | save id => inTweetsPanel (TweetsPanel.saveEdit id)
  | copy tweet => inTweetsPanel (TweetsPanel.copy_onClick tweet)
  | post tweet => inTweetsPanel (TweetsPanel.post_onClick tweet)
  | fires i => timerFires i
  end.

(** The bridge delivers the state [s] (a write of the remote agent, or
    the echo of a local one) and the page renders it. *)
Definition renders (s : FileInvestigatorState.t) : t -> t :=
  onPage (Page.seq (Page.setState s) Page.useEffect_stateRef).

(** One event: its handler runs, then the page renders again and the
    effect copies the state into the ref. *)
Definition step (e : Event) (a : t) : t :=
  onPage Page.useEffect_stateRef (handle e a).

Definition steps (es : list Event) (a : t) : t := foldl (flip step) a es.

(** The dashboard as first mounted. *)
Definition initial : t :=
  {| page :=
       {| Page.state := INITIAL_STATE;
          Page.stateRef_current := INITIAL_STATE;
          Page.toastMessage := None;
          Page.clipboard := [];
          Page.timers := [];
          Page.writes := [] |};
     fileUpload :=
       {| FileUpload.isDragging := false; FileUpload.isLoading := false;
          FileUpload.loadingMessage := "" |};
     tweetsPanel :=
       {| TweetsPanel.editingId := None; TweetsPanel.editContent := "" |};
     alerts := [];
     readers := [] |}.
End App.

(** ** The progress cards *)

Module ProgressCards.
Import React ToolCards.

(** The icon paths a tree draws, in document order. *)
Fixpoint paths {A} (n : Node A) : list string :=
  match n with
  | text _ => []
  | svg _ d => [d]
  | elem _ _ _ children => flat_map paths children
  end.

(** *** StatusProgressCard *)

Definition StatusProgressCard {A} (message : string) (toolStatus : Status)
  : Node A :=
  let isComplete :=
    match toolStatus with complete => true | _ => false end in
  elem "div"
    ("rounded-xl p-4 my-3 max-w-md border " ++
     if isComplete then "bg-green-50 border-green-200"
     else "bg-gradient-to-r from-indigo-50 to-purple-50 border-indigo-200")
    None
    [ elem "div" "flex items-center gap-3" None
        [ elem "div"
            ("w-8 h-8 rounded-lg flex items-center justify-center flex-shrink-0 " ++
             if isComplete then "bg-green-100" else "bg-indigo-100")
            None
            [ if isComplete then
                svg "w-4 h-4 text-green-600" "M5 13l4 4L19 7"
              else
                elem "div"
                  "w-4 h-4 border-2 border-indigo-300 border-t-indigo-600 rounded-full animate-spin"
                  None [] ];
          elem "p"
            ("text-sm " ++
             (if isComplete then "text-green-600" else "text-slate-600") ++
             " font-mono")
            None
            [ text message ] ] ].

(** *** AnalysisProgressCard *)

Record Config := mkConfig
  { icon : string; label : string; loadingText : string }.

(** The own properties of [TOOL_CONFIG]. *)
Definition TOOL_CONFIG : list (string * Config) :=
  [ ("update_findings",
     mkConfig
       "M9 5H7a2 2 0 00-2 2v12a2 2 0 002 2h10a2 2 0 002-2V7a2 2 0 00-2-2h-2M9 5a2 2 0 002 2h2a2 2 0 002-2M9 5a2 2 0 012-2h2a2 2 0 012 2m-6 9l2 2 4-4"
       "Populating Findings Panel"
       "Adding findings to dashboard...");
    ("update_redacted",
     mkConfig
       "M13.875 18.825A10.05 10.05 0 0112 19c-4.478 0-8.268-2.943-9.543-7a9.97 9.97 0 011.563-3.029m5.858.908a3 3 0 114.243 4.243M9.878 9.878l4.242 4.242M9.88 9.88l-3.29-3.29m7.532 7.532l3.29 3.29M3 3l3.59 3.59m0 0A9.953 9.953 0 0112 5c4.478 0 8.268 2.943 9.543 7a10.025 10.025 0 01-4.132 5.411m0 0L21 21"
       "Populating Redacted Panel"
       "Adding speculations to dashboard...");
    ("update_tweets",
     mkConfig
       "M8 12h.01M12 12h.01M16 12h.01M21 12c0 4.418-4.03 8-9 8a9.863 9.863 0 01-4.255-.949L3 20l1.395-3.72C3.512 15.042 3 13.574 3 12c0-4.418 4.03-8 9-8s9 3.582 9 8z"
       "Populating Tweets Panel"
       "Adding tweets to dashboard...");
    ("update_summary",
     mkConfig
       "M9 12h6m-6 4h6m2 5H7a2 2 0 01-2-2V5a2 2 0 012-2h5.586a1 1 0 01.707.293l5.414 5.414a1 1 0 01.293.707V19a2 2 0 01-2 2z"
       "Populating Summary Panel"
       "Adding summary to dashboard...") ].

Fixpoint own (key : string) (table : list (string * Config)) : option Config :=
  match table with
  | [] => None
  | (k, c) :: rest => if decide (k = key) then Some c else own key rest
  end.

(** What [TOOL_CONFIG[toolName] || {...}] evaluates to. [TOOL_CONFIG] is
    an object literal, so besides its own four keys the lookup finds what
    every object inherits ([toString], [constructor], ...): a function or
    an object, truthy, that has none of the three fields. *)
Inductive Found :=
| config (c : Config)
| inherited.

Section Card.
(** The names every object inherits a property for. *)
Variable Object_prototype_has : string -> bool.

Definition lookupConfig (toolName : string) : Found :=
  match own toolName TOOL_CONFIG with
  | Some c => config c
  | None =>
      if Object_prototype_has toolName then inherited
      else config (mkConfig "M13 10V3L4 14h7v7l9-11h-7z" toolName "Processing...")
  end.

(** [{config.label}] and [{config.loadingText}]: an [undefined] child
    renders nothing. *)
Definition field {A} (f : Config -> string) (found : Found) : list (Node A) :=
  match found with
  | config c => [text (f c)]
  | inherited => []
  end.

Definition AnalysisProgressCard {A} (toolName : string) (status : Status)
  : Node A :=
  let config := lookupConfig toolName in
  let isComplete := match status with complete => true | _ => false end in
  elem "div"
    ("rounded-xl p-4 my-3 max-w-sm border " ++
     if isComplete then "bg-green-50 border-green-200"
     else "bg-slate-50 border-slate-200")
    None
    [ elem "div" "flex items-center gap-3" None
        [ elem "div"
            ("w-10 h-10 rounded-lg flex items-center justify-center " ++
             if isComplete then "bg-green-100" else "bg-blue-100")
            None
            [ if isComplete then
                svg "w-5 h-5 text-green-600" "M5 13l4 4L19 7"
              else
                elem "div"
                  "w-5 h-5 border-2 border-blue-300 border-t-blue-600 rounded-full animate-spin"
                  None [] ];
          elem "div" "flex-1" None
            [ elem "p"
                ("font-medium " ++
                 if isComplete then "text-green-700" else "text-slate-700")
                None
                (field label config);
              elem "p" "text-xs text-slate-500" None
                (if isComplete then [text "Complete"]
                 else field loadingText config) ] ] ].
End Card.
End ProgressCards.

(** ** src/components/dashboard-panels.tsx: the findings and summary panels *)

Module Panels.
Import React.

Definition SEVERITY_COLORS (s : Finding.Severity) : string :=
  match s with
  | Finding.low => "bg-green-100 text-green-700 border-green-200"
  | Finding.medium => "bg-yellow-100 text-yellow-700 border-yellow-200"
  | Finding.high => "bg-orange-100 text-orange-700 border-orange-200"
  | Finding.critical => "bg-red-100 text-red-700 border-red-200"
  end.

(** The string a severity is at run time. *)
Definition Severity_string (s : Finding.Severity) : string :=
  match s with
  | Finding.low => "low"
  | Finding.medium => "medium"
  | Finding.high => "high"
  | Finding.critical => "critical"
  end.

(** [FindingsPanel]. The prop may be missing at run time ([None]):
    [findings ?? []]. *)
Definition FindingsPanel {A} (findings : option (list Finding.t)) : Node A :=
  let items := default [] findings in
  elem "div"
    "bg-white rounded-xl shadow-sm border border-slate-200 p-5 flex flex-col h-full min-h-0"
    None
    [ elem "div" "flex items-center gap-2 mb-4 flex-shrink-0" None
        [ elem "div"
            "w-8 h-8 bg-blue-100 rounded-lg flex items-center justify-center"
            None
            [ svg "w-4 h-4 text-blue-600"
                "M9 5H7a2 2 0 00-2 2v12a2 2 0 002 2h10a2 2 0 002-2V7a2 2 0 00-2-2h-2M9 5a2 2 0 002 2h2a2 2 0 002-2M9 5a2 2 0 012-2h2a2 2 0 012 2m-6 9l2 2 4-4" ];
          elem "h2" "text-lg font-semibold text-slate-900" None
            [ text "Key Findings" ] ];
      if decide (List.length items = 0%nat) then
        elem "p" "text-slate-400 italic text-sm" None
          [ text "Nothing to see here... yet. Move along." ]
      else
        elem "div" "space-y-3 overflow-y-auto flex-1" None
          (map (fun finding =>
                  elem "div" "border border-slate-100 rounded-lg p-3" None
                    [ elem "div" "flex items-start justify-between gap-2 mb-1"
                        None
                        [ elem "h3" "font-medium text-slate-900" None
                            [ text (Finding.title finding) ];
                          elem "span"
                            ("text-xs px-2 py-0.5 rounded-full border " ++
                             SEVERITY_COLORS (Finding.severity finding))
                            None
                            [ text (Severity_string (Finding.severity finding)) ] ];
                      elem "p" "text-sm text-slate-600" None
                        [ text (Finding.description finding) ] ])
             items) ].

Section Summary.
(** [<ReactMarkdown>{summary}</ReactMarkdown>], a component of a library. *)
Context {A : Type}.
Variable ReactMarkdown : string -> Node A.

(** [SummaryPanel]. [!summary] holds for [null] and for the empty
    string. *)
Definition SummaryPanel (summary : option string) : Node A :=
  elem "div"
    "bg-white rounded-xl shadow-sm border border-slate-200 p-5 flex flex-col h-full min-h-0"
    None
    [ elem "div" "flex items-center gap-2 mb-4 flex-shrink-0" None
        [ elem "div"
            "w-8 h-8 bg-purple-100 rounded-lg flex items-center justify-center"
            None
            [ svg "w-4 h-4 text-purple-600"
                "M9 12h6m-6 4h6m2 5H7a2 2 0 01-2-2V5a2 2 0 012-2h5.586a1 1 0 01.707.293l5.414 5.414a1 1 0 01.293.707V19a2 2 0 01-2 2z" ];
          elem "h2" "text-lg font-semibold text-slate-900" None
            [ text "Executive Summary" ] ];
      match summary with
      | None | Some EmptyString =>
          elem "p" "text-slate-400 italic text-sm" None
            [ text "Summary pending. File secured. Unlike some other files..." ]
      | Some s =>
          elem "div"
            "text-sm text-slate-700 leading-relaxed overflow-y-auto flex-1 prose prose-sm prose-slate max-w-none"
            None
            [ ReactMarkdown s ]
      end ].
End Summary.
End Panels.

(** ** Trees with handlers for several kinds of events

    The tweets panel and the upload area bind handlers to changes and to
    drag-and-drop as well as to clicks: their trees carry, per element,
    the handlers bound and the kind of event each is bound to. *)

Module Dom.
Inductive Kind := onClick | onChange | onDrop | onDragOver | onDragLeave.

#[global] Instance Kind_eq_dec : EqDecision Kind.
Proof. solve_decision. Defined.

Inductive Node (A : Type) : Type :=
| text (s : string)
| svg (className d : string)
| elem (tag className : string) (on : list (Kind * A))
    (children : list (Node A)).
Arguments text {A} s.
Arguments svg {A} className d.
Arguments elem {A} tag className on children.

(** The handlers bound to [k] among the bindings of one element. *)
Fixpoint pick {A} (k : Kind) (on : list (Kind * A)) : list A :=
  match on with
  | [] => []
  | (k', a) :: rest =>
      if decide (k' = k) then a :: pick k rest else pick k rest
  end.

(** The handlers a tree binds to events of kind [k], in document order. *)
Fixpoint bound {A} (k : Kind) (n : Node A) : list A :=
  match n with
  | text _ | svg _ _ => []
  | elem _ _ on children => pick k on ++ flat_map (bound k) children
  end.

(** The texts shown by a tree, in document order. *)
Fixpoint texts {A} (n : Node A) : list string :=
  match n with
  | text s => [s]
  | svg _ _ => []
  | elem _ _ _ children => flat_map texts children
  end.
End Dom.

(** ** src/components/dashboard-panels.tsx: what the tweets panel renders *)

Module TweetsPanelView.
Import Dom.

(** The handlers the panel binds: the functions of [TweetsPanel], each with
    the argument its arrow function closes over. *)
Inductive Handler :=
| startEdit_ (tweet : Tweet.t)
| copy_ (tweet : Tweet.t)
| post_ (tweet : Tweet.t)
| cancelEdit_
| saveEdit_ (id : string)
| change_.

(** Running a handler; [value] is [e.target.value], read by the textarea's
    handler only. *)
Definition run (h : Handler) (value : string)
  : TweetsPanel.t -> TweetsPanel.t * list TweetsPanel.Out :=
  match h with
  | startEdit_ tweet => TweetsPanel.startEdit tweet
  | copy_ tweet => TweetsPanel.copy_onClick tweet
  | post_ tweet => TweetsPanel.post_onClick tweet
  | cancelEdit_ => TweetsPanel.cancelEdit
  | saveEdit_ id => TweetsPanel.saveEdit id
  | change_ => TweetsPanel.textarea_onChange value
  end.

(** One tweet of the list. A string is taken as its sequence of code
    units, so [editContent.length] is its length; the textarea shows its
    [value]. *)
Definition renderTweet (c : TweetsPanel.t) (tweet : Tweet.t) : Node Handler :=
  elem "div" "border border-slate-100 rounded-lg p-3" []
    (if decide (TweetsPanel.editingId c = Some (Tweet.id tweet)) then
       [ elem "div" "space-y-2" []
           [ elem "textarea"
               "w-full text-sm border border-slate-200 rounded-lg p-2 resize-none focus:outline-none focus:ring-2 focus:ring-blue-500"
               [(onChange, change_)]
               [ text (TweetsPanel.editContent c) ];
             elem "div" "flex justify-between items-center" []
               [ elem "span" "text-xs text-slate-400" []
                   [ text (pretty (String.length (TweetsPanel.editContent c)));
                     text "/280" ];
                 elem "div" "flex gap-2" []
                   [ elem "button" "text-xs text-slate-500 hover:text-slate-700"
                       [(onClick, cancelEdit_)]
                       [ text "Cancel" ];
                     elem "button"
                       "text-xs text-blue-600 hover:text-blue-700 font-medium"
                       [(onClick, saveEdit_ (Tweet.id tweet))]
                       [ text "Save" ] ] ] ] ]
     else
       [ elem "p" "text-sm text-slate-800 mb-3" []
           [ text (Tweet.content tweet) ];
         elem "div" "flex gap-2" []
           [ elem "button"
               "text-xs text-slate-500 hover:text-slate-700 flex items-center gap-1"
               [(onClick, startEdit_ tweet)]
               [ svg "w-3.5 h-3.5"
                   "M11 5H6a2 2 0 00-2 2v11a2 2 0 002 2h11a2 2 0 002-2v-5m-1.414-9.414a2 2 0 112.828 2.828L11.828 15H9v-2.828l8.586-8.586z";
                 text "Edit" ];
             elem "button"
               "text-xs text-slate-500 hover:text-slate-700 flex items-center gap-1"
               [(onClick, copy_ tweet)]
               [ svg "w-3.5 h-3.5"
                   "M8 16H6a2 2 0 01-2-2V6a2 2 0 012-2h8a2 2 0 012 2v2m-6 12h8a2 2 0 002-2v-8a2 2 0 00-2-2h-8a2 2 0 00-2 2v8a2 2 0 002 2z";
                 text "Copy" ];
             elem "button"
               ("text-xs flex items-center gap-1 " ++
                if Tweet.posted tweet then "text-green-600"
                else "text-sky-500 hover:text-sky-600")
               [(onClick, post_ tweet)]
               (if Tweet.posted tweet then
                  [ svg "w-3.5 h-3.5" "M5 13l4 4L19 7"; text "Posted" ]
                else
                  [ svg "w-3.5 h-3.5"
                      "M4 16v1a3 3 0 003 3h10a3 3 0 003-3v-1m-4-8l-4-4m0 0L8 8m4-4v12";
                    text "Post" ]) ] ]).

(** [TweetsPanel]. The prop may be missing at run time ([None]):
    [tweets ?? []]. *)
Definition render (tweets : option (list Tweet.t)) (c : TweetsPanel.t)
  : Node Handler :=
  let items := default [] tweets in
  elem "div"
    "bg-white rounded-xl shadow-sm border border-slate-200 p-5 flex flex-col h-full min-h-0"
    []
    [ elem "div" "flex items-center gap-2 mb-4 flex-shrink-0" []
        [ elem "div"
            "w-8 h-8 bg-sky-100 rounded-lg flex items-center justify-center"
            []
            [ svg "w-4 h-4 text-sky-500"
                "M18.244 2.25h3.308l-7.227 8.26 8.502 11.24H16.17l-5.214-6.817L4.99 21.75H1.68l7.73-8.835L1.254 2.25H8.08l4.713 6.231zm-1.161 17.52h1.833L7.084 4.126H5.117z" ];
          elem "h2" "text-lg font-semibold text-slate-900" []
            [ text "Generated Tweets" ] ];
      if decide (List.length items = 0%nat) then
        elem "p" "text-slate-400 italic text-sm" []
          [ text "No tweets yet. The truth wants to be shared..." ]
      else
        elem "div" "space-y-3 overflow-y-auto flex-1" []
          (map (renderTweet c) items) ].
End TweetsPanelView.

(** ** src/components/file-upload.tsx: what the upload area renders *)

Module FileUploadView.
Import Dom.

Inductive Handler :=
| clear_
| handleDrop_
| handleDragOver_
| handleDragLeave_
| inputChange_.

(** Running a handler; [k] is the random index and [files] the file list
    of the event, read by the drop and the input handlers only. *)
Definition run (h : Handler) (k : nat) (files : list FileUpload.File)
  : FileUpload.t -> FileUpload.t * list FileUpload.Out :=
  match h with
  | clear_ => FileUpload.clear_onClick
  | handleDrop_ => FileUpload.handleDrop k files
  | handleDragOver_ => FileUpload.handleDragOver
  | handleDragLeave_ => FileUpload.handleDragLeave
  | inputChange_ => FileUpload.input_onChange k files
  end.

Definition newline : string := String "010"%char EmptyString.

(** The class of the drop zone: a template literal that spans lines. *)
Definition dropZoneClass (isDragging : bool) : string :=
  newline ++
  "        relative border-2 border-dashed rounded-xl p-8 text-center transition-all" ++
  newline ++
  "        " ++
  (if isDragging then "border-blue-500 bg-blue-50"
   else "border-slate-300 hover:border-slate-400 bg-white") ++
  newline ++
  "      ".

Definition render (currentFile : option UploadedFile.t) (c : FileUpload.t)
  : Node Handler :=
  match currentFile with
  | Some currentFile =>
      elem "div" "bg-white rounded-xl shadow-sm border border-slate-200 p-4" []
        [ elem "div" "flex items-center gap-3" []
            [ elem "div"
                "w-10 h-10 bg-blue-100 rounded-lg flex items-center justify-center"
                []
                [ svg "w-5 h-5 text-blue-600"
                    "M9 12h6m-6 4h6m2 5H7a2 2 0 01-2-2V5a2 2 0 012-2h5.586a1 1 0 01.707.293l5.414 5.414a1 1 0 01.293.707V19a2 2 0 01-2 2z" ];
              elem "div" "flex-1" []
                [ elem "p" "font-medium text-slate-900" []
                    [ text (UploadedFile.name currentFile) ];
                  elem "p" "text-sm text-slate-500" []
                    [ text "Ready for investigation" ] ];
              elem "button" "text-slate-400 hover:text-slate-600"
                [(onClick, clear_)]
                [ svg "w-5 h-5" "M6 18L18 6M6 6l12 12" ] ] ]
  | None =>
      elem "div" (dropZoneClass (FileUpload.isDragging c))
        [ (onDrop, handleDrop_);
          (onDragOver, handleDragOver_);
          (onDragLeave, handleDragLeave_) ]
        (if FileUpload.isLoading c then
           [ elem "div" "space-y-3" []
               [ elem "div"
                   "w-12 h-12 mx-auto border-4 border-blue-200 border-t-blue-600 rounded-full animate-spin"
                   [] [];
                 elem "p" "text-slate-600 italic" []
                   [ text (FileUpload.loadingMessage c) ] ] ]
         else
           [ elem "div"
               "w-16 h-16 mx-auto mb-4 bg-slate-100 rounded-full flex items-center justify-center"
               []
               [ svg "w-8 h-8 text-slate-400"
                   "M7 16a4 4 0 01-.88-7.903A5 5 0 1115.9 6L16 6a5 5 0 011 9.9M15 13l-3-3m0 0l-3 3m3-3v12" ];
             elem "p" "text-slate-600 mb-1" []
               [ text "Drag and drop your PDF here, or";
                 text " ";
                 elem "label"
                   "text-blue-600 hover:text-blue-700 cursor-pointer font-medium"
                   []
                   [ text "browse";
                     elem "input" "hidden" [(onChange, inputChange_)] [] ] ];
             elem "p" "text-sm text-slate-400" []
               [ text "Certain documents that didn't unredact themselves are welcome" ] ])
  end.
End FileUploadView.

(** ** src/app/page.tsx: the dashboard as the user reaches it *)

Module Screen.
Import FileInvestigatorState.

(** [<FileUpload ... currentFile={state.uploadedFile} />] and
    [<TweetsPanel tweets={state.tweets} ... />] *)
Definition fileUpload (a : App.t) : Dom.Node FileUploadView.Handler :=
  FileUploadView.render (uploadedFile (Page.state (App.page a)))
    (App.fileUpload a).

Definition tweetsPanel (a : App.t) : Dom.Node TweetsPanelView.Handler :=
  TweetsPanelView.render (Some (tweets (Page.state (App.page a))))
    (App.tweetsPanel a).

(** The event of the dashboard that a bound handler stands for. *)
Definition uploadEvent (h : FileUploadView.Handler) (k : nat)
    (files : list FileUpload.File) : App.Event :=
  match h with
  | FileUploadView.clear_ => App.clear
  | FileUploadView.handleDrop_ => App.drop k files
  | FileUploadView.handleDragOver_ => App.dragOver
  | FileUploadView.handleDragLeave_ => App.dragLeave
  | FileUploadView.inputChange_ => App.pick k files
  end.

Definition tweetsEvent (h : TweetsPanelView.Handler) (value : string)
  : App.Event :=
  match h with
  | TweetsPanelView.startEdit_ tweet => App.edit tweet
  | TweetsPanelView.copy_ tweet => App.copy tweet
  | TweetsPanelView.post_ tweet => App.post tweet
  | TweetsPanelView.cancelEdit_ => App.cancel
  | TweetsPanelView.saveEdit_ id => App.save id
  | TweetsPanelView.change_ => App.typing value
  end.

(** What the user and the browser do to the dashboard. A user acts on the
    [n]-th element of a component that listens to the kind of event at
    hand; what is not on screen cannot be acted on. The browser ends a
    read or fires a timer. *)
Inductive Action :=
| onUpload (kind : Dom.Kind) (n : nat) (k : nat) (files : list FileUpload.File)
| onTweets (kind : Dom.Kind) (n : nat) (value : string)
| readerDone (i : nat) (result : string)
| timerDone (i : nat).

Definition eventOf (act : Action) (a : App.t) : option App.Event :=
  match act with
  | onUpload kind n k files =>
      (fun h => uploadEvent h k files) <$> Dom.bound kind (fileUpload a) !! n
  | onTweets kind n value =>
      (fun h => tweetsEvent h value) <$> Dom.bound kind (tweetsPanel a) !! n
  | readerDone i result => Some (App.loaded i result)
  | timerDone i => Some (App.fires i)
  end.

Definition act (x : Action) (a : App.t) : App.t :=
  match eventOf x a with
  | Some e => App.step e a
  | None => a
  end.

Definition acts (xs : list Action) (a : App.t) : App.t := foldl (flip act) a xs.
End Screen.

(** ** Reading a sequence of clicks on the proposal card *)

Module ProposalCardFacts.
Import React ToolCards ToolCards.AnalysisProposalCard.

(** The button under the [n]-th clickable position of the unanswered
    card, the first response of a sequence of clicks, and the calls of
    the props that a response stands for. *)
Definition buttonAt (n : nat) : option Response :=
  match n with
  | 0 => Some approved
  | 1 => Some denied
  | _ => None
  end.

Fixpoint firstResponse (clicks : list nat) : option Response :=
  match clicks with
  | [] => None
  | n :: rest =>
      match buttonAt n with
      | Some r => Some r
      | None => firstResponse rest
      end
  end.

Definition callsOf (props : Props) (r : option Response) : list Out :=
  match r with
  | None => []
  | Some approved => if onApprove props then [call_onApprove] else []
  | Some denied => if onDeny props then [call_onDeny] else []
  end.

(** An entry of the list of proposed analyses, as [render] builds it. *)
Definition item (analysis : string) : Node Handler :=
  elem "li" "text-sm text-slate-700 flex items-center gap-2" None
    [ elem "span" "w-1.5 h-1.5 bg-blue-500 rounded-full" None [];
      text analysis ].

Definition confirmation (r : Response) : string :=
  match r with
  | approved => "Investigation approved"
  | denied => "Investigation declined"
  end.
End ProposalCardFacts.

(** ** Sample inputs *)

Import FileInvestigatorState.

Definition tw1 : Tweet.t := Tweet.mk "t1" "old text" false.
Definition tw2 : Tweet.t := Tweet.mk "t2" "other" false.
Definition tw3 : Tweet.t := Tweet.mk "t1" "twin" true.

Definition busy : FileInvestigatorState.t :=
  {| uploadedFile := Some (UploadedFile.mk "a.pdf" (Some "QUJD") "application/pdf");
     findings := [Finding.mk "f1" "title" "description" Finding.high];
     redactedContent := [RedactedItem.mk "r1" "page 2" "a name" 80];
     tweets := [tw1; tw2; tw3];
     summary := Some "# Summary";
     analysisStatus := complete |}.

Definition report : FileUpload.File :=
  FileUpload.mkFile "report.pdf" "application/pdf" 2097152.
Definition notes : FileUpload.File :=
  FileUpload.mkFile "notes.pdf" "text/plain" 12.
Definition huge : FileUpload.File :=
  FileUpload.mkFile "huge.pdf" "application/pdf" 10485761.
Definition limit : FileUpload.File :=
  FileUpload.mkFile "limit.pdf" "application/pdf" 10485760.
Definition empty : FileUpload.File :=
  FileUpload.mkFile "empty.pdf" "application/pdf" 0.
Definition report_txt : FileUpload.File :=
  FileUpload.mkFile "report.txt" "application/pdf" 2097152.

Definition sampleProposal : ToolCards.AnalysisProposalCard.Props :=
  ToolCards.AnalysisProposalCard.mkProps "report.pdf"
    ["Key findings"; "Redactions"] ToolCards.executing true true.

(** ** Notions used by the properties of file intake *)

(** The character [c] does not occur in [s]. *)
Definition free (c : ascii) (s : string) : Prop :=
  ~ In c (list_ascii_of_string s).

(** [parts.join(sep)], the inverse of [split]. *)
Definition join (sep : ascii) (parts : list string) : string :=
  String.concat (String sep EmptyString) parts.

(** A file that passes the two checks of [handleFile]. *)
Definition passes (f : FileUpload.File) : Prop :=
  FileUpload.type f = "application/pdf"
  /\ (FileUpload.size f <= FileUpload.MAX_SIZE)%N.

(** The file that [onload] hands to [onFileUpload] for [f] and the data
    URL [result]. *)
Definition uploadOf (f : FileUpload.File) (result : string) : UploadedFile.t :=
  {| UploadedFile.name := FileUpload.name f;
     UploadedFile.base64 := FileUpload.split ","%char result !! 1%nat;
     UploadedFile.mimeType := FileUpload.type f |}.

(** ** Notions used by the properties of the dashboard *)

(** The ref is in line with the state, as after every render. *)
Definition settled (a : App.t) : Prop :=
  Page.stateRef_current (App.page a) = Page.state (App.page a).

(** [s'] holds no analysis content that [s] did not hold: each result
    field is as in [s] or has been reset, and the tweets are those of [s]
    (same ids, in place) or none. *)
Definition noNewContent (s s' : FileInvestigatorState.t) : Prop :=
  (findings s' = findings s \/ findings s' = [])
  /\ (redactedContent s' = redactedContent s \/ redactedContent s' = [])
  /\ (summary s' = summary s \/ summary s' = None)
  /\ (analysisStatus s' = analysisStatus s \/ analysisStatus s' = idle)
  /\ (Tweet.id <$> tweets s' = Tweet.id <$> tweets s \/ tweets s' = []).

(** The ref is in line with the state (as it is after every render and
    every step), every file being read passed validation, and the stored
    file, if any, is declared a PDF. *)
Definition onlyPdfs (a : App.t) : Prop :=
  settled a
  /\ Forall passes (App.readers a)
  /\ forall u, uploadedFile (Page.state (App.page a)) = Some u ->
               UploadedFile.mimeType u = "application/pdf".

(** The event is the end of a read. *)
Definition endsRead (e : App.Event) : bool :=
  match e with App.loaded _ _ => true | _ => false end.

(** The property names that a plain object inherits in a browser. *)
Definition Object_prototype_has (name : string) : bool :=
  bool_decide
    (name ∈ ["constructor"; "hasOwnProperty"; "isPrototypeOf";
             "propertyIsEnumerable"; "toLocaleString"; "toString"; "valueOf";
             "__proto__"; "__defineGetter__"; "__defineSetter__";
             "__lookupGetter__"; "__lookupSetter__"]).

(** A state whose tweets have ids of their own. *)
Definition calm : FileInvestigatorState.t :=
  {| uploadedFile := None; findings := []; redactedContent := [];
     tweets := [tw1; tw2]; summary := None; analysisStatus := idle |}.

Definition second : FileUpload.File :=
  FileUpload.mkFile "second.pdf" "application/pdf" 1024.

(** * Properties *)

(** ** Sanity checks on concrete inputs *)

Example split_data_url :
  FileUpload.split ","%char "data:application/pdf;base64,QUJD"
  = ["data:application/pdf;base64"; "QUJD"].
Proof. reflexivity. Qed.

Example split_no_comma : FileUpload.split ","%char "data:" !! 1%nat = None.
Proof. reflexivity. Qed.

Example upload_report :
  Page.state (App.page
    (App.steps [App.drop 2 [report]; App.loaded 0 "data:application/pdf;base64,QUJD"]
       (App.renders busy App.initial)))
  = {| uploadedFile := Some (UploadedFile.mk "report.pdf" (Some "QUJD") "application/pdf");
       findings := []; redactedContent := []; tweets := []; summary := None;
       analysisStatus := idle |}.
Proof. reflexivity. Qed.

Example edit_t1 :
  tweets (Page.state (App.page
    (App.steps [App.edit tw1; App.typing "new text"; App.save "t1"]
       (App.renders busy App.initial))))
  = [Tweet.mk "t1" "new text" false; tw2; Tweet.mk "t1" "new text" true].
Proof. reflexivity. Qed.

(** ** The file-upload handler *)

(** C1. Whatever the page held and whatever is uploaded (a file, or [None]
    to clear), [handleFileUpload] makes exactly one call of [setState]:
    the record of writes grows by one entry, and that one entry carries
    the new [uploadedFile] together with empty [findings],
    [redactedContent] and [tweets] and a null [summary]; the state after
    the handler is that entry. Both ways into the handler, the clear
    button and the end of a read, leave the dashboard in such a state
    after that one write. *)
Theorem handleFileUpload_resets_in_one_write
    (p : Page.t) (file : option UploadedFile.t) :
  (exists next : FileInvestigatorState.t,
     Page.handleFileUpload file p = Page.setState next p
     /\ Page.writes (Page.handleFileUpload file p)
        = (Page.writes p ++ [next])%list
     /\ Page.state (Page.handleFileUpload file p) = next
     /\ uploadedFile next = file
     /\ findings next = []
     /\ redactedContent next = []
     /\ tweets next = []
     /\ summary next = None)
  /\ (forall a : App.t,
        Page.state (App.page (App.step App.clear a))
        = Page.state (Page.handleFileUpload None (App.page a))
        /\ Page.writes (App.page (App.step App.clear a))
           = (Page.writes (App.page a)
              ++ [Page.state (Page.handleFileUpload None (App.page a))])%list)
  /\ (forall (a : App.t) (i : nat) (result : string),
        Page.state (App.page (App.step (App.loaded i result) a))
        = match App.readers a !! i with
          | Some f =>
              Page.state
                (Page.handleFileUpload
                   (Some {| UploadedFile.name := FileUpload.name f;
                            UploadedFile.base64 :=
                              FileUpload.split ","%char result !! 1%nat;
                            UploadedFile.mimeType := FileUpload.type f |})
                   (App.page a))
          | None => Page.state (App.page a)
          end
        /\ Page.writes (App.page (App.step (App.loaded i result) a))
           = match App.readers a !! i with
             | Some f =>
                 (Page.writes (App.page a)
                  ++ [Page.state (App.page (App.step (App.loaded i result) a))])%list
             | None => Page.writes (App.page a)
             end).
Proof.
  split; [|split].
  - eexists. split; [reflexivity|]. cbn. repeat split.
  - intros a. split; reflexivity.
  - intros a i result. unfold App.step, App.handle, App.readerLoads.
    destruct (App.readers a !! i) as [f|]; split; reflexivity.
Qed.

(** C10. After [handleFileUpload] the status is [idle], for a file as for
    a clear: it is never left at [proposed], [analyzing] or [complete]. *)
Theorem handleFileUpload_status_idle
    (p : Page.t) (file : option UploadedFile.t) :
  let s' := Page.state (Page.handleFileUpload file p) in
  analysisStatus s' = idle
  /\ analysisStatus s' <> proposed
  /\ analysisStatus s' <> analyzing
  /\ analysisStatus s' <> complete.
Proof.
  cbn. destruct file; repeat split; discriminate.
Qed.

(** ** The tweet handlers *)

Section TweetMaps.
Implicit Types (t : Tweet.t) (ts : list Tweet.t) (id c : string).

Lemma replaceContent_id id c t : Tweet.id (Page.replaceContent id c t) = Tweet.id t.
Proof. unfold Page.replaceContent. by case_decide. Qed.

Lemma replaceContent_posted id c t :
  Tweet.posted (Page.replaceContent id c t) = Tweet.posted t.
Proof. unfold Page.replaceContent. by case_decide. Qed.

Lemma replaceContent_hit id c t :
  Tweet.id t = id -> Tweet.content (Page.replaceContent id c t) = c.
Proof. intros H. unfold Page.replaceContent. by rewrite decide_True. Qed.

Lemma replaceContent_miss id c t :
  Tweet.id t <> id -> Page.replaceContent id c t = t.
Proof. intros H. unfold Page.replaceContent. by rewrite decide_False. Qed.

Lemma markPosted_id id t : Tweet.id (Page.markPosted id t) = Tweet.id t.
Proof. unfold Page.markPosted. by case_decide. Qed.

Lemma markPosted_content id t :
  Tweet.content (Page.markPosted id t) = Tweet.content t.
Proof. unfold Page.markPosted. by case_decide. Qed.

Lemma markPosted_hit id t :
  Tweet.id t = id -> Tweet.posted (Page.markPosted id t) = true.
Proof. intros H. unfold Page.markPosted. by rewrite decide_True. Qed.

Lemma markPosted_miss id t : Tweet.id t <> id -> Page.markPosted id t = t.
Proof. intros H. unfold Page.markPosted. by rewrite decide_False. Qed.

Lemma markPosted_twice id t :
  Page.markPosted id (Page.markPosted id t) = Page.markPosted id t.
Proof.
  destruct (decide (Tweet.id t = id)) as [Heq|Hne].
  - unfold Page.markPosted. destruct (decide (Tweet.id t = id)); [|done].
    cbn. by case_match.
  - by rewrite !(markPosted_miss id t Hne).
Qed.

(** A map that keeps a projection of every item keeps the list of
    projections. *)
Lemma fmap_keeps {B} (proj : Tweet.t -> B) (f : Tweet.t -> Tweet.t) ts :
  (forall t, proj (f t) = proj t) -> proj <$> (f <$> ts) = proj <$> ts.
Proof.
  intros H. rewrite <- list_fmap_compose. apply list_fmap_ext.
  intros _ t _. apply H.
Qed.
End TweetMaps.

(** Every step ends with the ref in line with the state. *)
Lemma step_ref_in_line (e : App.Event) (a : App.t) :
  Page.stateRef_current (App.page (App.step e a))
  = Page.state (App.page (App.step e a)).
Proof. reflexivity. Qed.

(** C4. In any state [s], typing a new content and saving the edit of the
    tweet [t1] leaves every top-level field but [tweets] as it was, keeps
    the length of [tweets] and the [id] and [posted] of every item in
    place, gives the new content to the items whose id is [t1], and
    leaves every other item as it was. *)
Theorem saveEdit_changes_only_content
    (a : App.t) (s : FileInvestigatorState.t) (t1 newContent : string) :
  let a' := App.steps [App.typing newContent; App.save t1] (App.renders s a) in
  let s' := Page.state (App.page a') in
  uploadedFile s' = uploadedFile s
  /\ findings s' = findings s
  /\ redactedContent s' = redactedContent s
  /\ summary s' = summary s
  /\ analysisStatus s' = analysisStatus s
  /\ List.length (tweets s') = List.length (tweets s)
  /\ Tweet.id <$> tweets s' = Tweet.id <$> tweets s
  /\ Tweet.posted <$> tweets s' = Tweet.posted <$> tweets s
  /\ forall (i : nat) (t : Tweet.t),
       tweets s !! i = Some t ->
       exists t', tweets s' !! i = Some t'
         /\ (Tweet.id t = t1 -> Tweet.content t' = newContent)
         /\ (Tweet.id t <> t1 -> t' = t).
Proof.
  cbn. repeat split.
  - apply length_fmap.
  - apply fmap_keeps, replaceContent_id.
  - apply fmap_keeps, replaceContent_posted.
  - intros i t Hi. exists (Page.replaceContent t1 newContent t).
    rewrite list_lookup_fmap, Hi. split; [done|].
    split; [apply replaceContent_hit | apply replaceContent_miss].
Qed.

Lemma saveEdit_changes_only_content_witness :
  let a' := App.steps [App.typing "new text"; App.save "t1"]
              (App.renders busy App.initial) in
  tweets busy !! 0%nat = Some tw1
  /\ exists t', tweets (Page.state (App.page a')) !! 0%nat = Some t'
       /\ (Tweet.id tw1 = "t1" -> Tweet.content t' = "new text")
       /\ (Tweet.id tw1 <> "t1" -> t' = tw1).
Proof.
  split; [reflexivity|].
  apply (saveEdit_changes_only_content App.initial busy "t1" "new text").
  reflexivity.
Defined.

(** C5. In any state [s], the Post button of a tweet leaves every
    top-level field but [tweets] as it was, keeps the length of [tweets]
    and the [id] and [content] of every item in place, sets [posted] on
    the items that carry the id of the clicked tweet, and leaves every
    other item as it was. Posting again changes nothing more: the state
    after two posts is the state after one, whether the page rendered in
    between or the handler ran twice on the same ref. *)
Theorem post_sets_posted_and_is_idempotent
    (a : App.t) (s : FileInvestigatorState.t) (tweet : Tweet.t) :
  let t1 := Tweet.id tweet in
  let a' := App.step (App.post tweet) (App.renders s a) in
  let s' := Page.state (App.page a') in
  (uploadedFile s' = uploadedFile s
   /\ findings s' = findings s
   /\ redactedContent s' = redactedContent s
   /\ summary s' = summary s
   /\ analysisStatus s' = analysisStatus s
   /\ List.length (tweets s') = List.length (tweets s)
   /\ Tweet.id <$> tweets s' = Tweet.id <$> tweets s
   /\ Tweet.content <$> tweets s' = Tweet.content <$> tweets s
   /\ forall (i : nat) (t : Tweet.t),
        tweets s !! i = Some t ->
        exists t', tweets s' !! i = Some t'
          /\ (Tweet.id t = t1 -> Tweet.posted t' = true)
          /\ (Tweet.id t <> t1 -> t' = t))
  /\ Page.state (App.page (App.step (App.post tweet) a')) = s'
  /\ forall p : Page.t,
       Page.state (Page.handlePostTweet t1 (Page.handlePostTweet t1 p))
       = Page.state (Page.handlePostTweet t1 p).
Proof.
  cbn. split; [repeat split|split].
  - apply length_fmap.
  - apply fmap_keeps, markPosted_id.
  - apply fmap_keeps, markPosted_content.
  - intros i t Hi. exists (Page.markPosted (Tweet.id tweet) t).
    rewrite list_lookup_fmap, Hi. split; [done|].
    split; [apply markPosted_hit | apply markPosted_miss].
  - unfold Page.withTweets; cbn. f_equal.
    rewrite <- list_fmap_compose. apply list_fmap_ext.
    intros _ t _. apply markPosted_twice.
  - reflexivity.
Qed.

Lemma post_sets_posted_and_is_idempotent_witness :
  let a' := App.step (App.post tw1) (App.renders busy App.initial) in
  tweets busy !! 2%nat = Some tw3
  /\ tweets busy !! 1%nat = Some tw2
  /\ (exists t', tweets (Page.state (App.page a')) !! 0%nat = Some t'
        /\ (Tweet.id tw1 = Tweet.id tw1 -> Tweet.posted t' = true)
        /\ (Tweet.id tw1 <> Tweet.id tw1 -> t' = tw1))
  /\ Page.state (App.page (App.step (App.post tw1) a'))
     = Page.state (App.page a').
Proof.
  pose proof (post_sets_posted_and_is_idempotent App.initial busy tw1) as H.
  cbv zeta in H. destruct H as [Hframe [Hidem _]].
  split; [reflexivity|]. split; [reflexivity|]. split.
  - apply Hframe. reflexivity.
  - exact Hidem.
Defined.

(** C6. Copy and Cancel never write the shared state. The Copy button of
    a tweet puts its content on the clipboard and leaves the state as it
    was, also once the timer of the toast has fired. Starting the edit of
    a tweet, typing any drafts and canceling leaves the page, hence every
    stored tweet, as it was, with the panel out of edit mode. *)
Theorem copy_and_cancel_write_nothing (a : App.t) (tweet : Tweet.t) :
  (let a' := App.step (App.copy tweet) a in
   Page.state (App.page a') = Page.state (App.page a)
   /\ Page.clipboard (App.page a')
      = (Page.clipboard (App.page a) ++ [Tweet.content tweet])%list
   /\ forall i : nat,
        Page.state (App.page (App.step (App.fires i) a'))
        = Page.state (App.page a))
  /\ forall drafts : list string,
       let a' := App.steps
                   (App.edit tweet :: (App.typing <$> drafts) ++ [App.cancel])%list
                   a in
       Page.state (App.page a') = Page.state (App.page a)
       /\ tweets (Page.state (App.page a')) = tweets (Page.state (App.page a))
       /\ TweetsPanel.editingId (App.tweetsPanel a') = None
       /\ TweetsPanel.editContent (App.tweetsPanel a') = "".
Proof.
  split.
  - cbn. repeat split. intros i. unfold App.step, App.handle, App.timerFires.
    cbn. destruct (_ !! i) as [[[] ms]|]; reflexivity.
  - intros drafts. cbv zeta. unfold App.steps.
    cbn [foldl app]. rewrite foldl_app. cbn [foldl flip].
    assert (Hinv : forall ds b,
               Page.state (App.page (foldl (flip App.step) b (App.typing <$> ds)))
               = Page.state (App.page b)).
    { induction ds as [|d ds IH]; intros b; [reflexivity|].
      rewrite fmap_cons. cbn [foldl]. rewrite IH. reflexivity. }
    cbn. rewrite !Hinv. repeat split.
Qed.

(** ** File intake *)

Lemma MAX_SIZE_bytes : FileUpload.MAX_SIZE = 10485760%N.
Proof. reflexivity. Qed.

(** What [handleFile] does on a file of another type, of a PDF that is too
    large, and of a PDF that fits. *)
Lemma handleFile_wrong_type k file c :
  FileUpload.type file <> "application/pdf" ->
  FileUpload.handleFile k file c = (c, [FileUpload.alert "Please upload a PDF file"]).
Proof. intros H. unfold FileUpload.handleFile. by rewrite decide_True. Qed.

Lemma handleFile_too_large k file c :
  FileUpload.type file = "application/pdf" ->
  (FileUpload.MAX_SIZE < FileUpload.size file)%N ->
  FileUpload.handleFile k file c
  = (c, [FileUpload.alert "File too large. Maximum size is 10MB."]).
Proof.
  intros Ht Hs. unfold FileUpload.handleFile.
  rewrite decide_False by (intros Hn; by apply Hn).
  apply N.ltb_lt in Hs. by rewrite Hs.
Qed.

Lemma handleFile_fits k file c :
  FileUpload.type file = "application/pdf" ->
  (FileUpload.size file <= FileUpload.MAX_SIZE)%N ->
  FileUpload.handleFile k file c
  = (FileUpload.setLoadingMessage (default "" (FileUpload.LOADING_MESSAGES !! k))
       (FileUpload.setIsLoading true c),
     [FileUpload.readAsDataURL file]).
Proof.
  intros Ht Hs. unfold FileUpload.handleFile.
  rewrite decide_False by (intros Hn; by apply Hn).
  apply N.ltb_ge in Hs. by rewrite Hs.
Qed.

(** C2. A file whose declared type is not [application/pdf] is turned
    down: [handleFile] shows the alert and does nothing else (no cell of
    the component changes, no read starts, [onFileUpload] is not called),
    so dropping or picking such a file leaves the shared state as it was
    and starts no read. *)
Theorem wrong_type_rejected_without_state_change
    (a : App.t) (k : nat) (file : FileUpload.File)
    (others : list FileUpload.File) :
  FileUpload.type file <> "application/pdf" ->
  (forall c, FileUpload.handleFile k file c
             = (c, [FileUpload.alert "Please upload a PDF file"]))
  /\ FileUpload.outcome (FileUpload.handleFile k file (App.fileUpload a)).2
     = FileUpload.rejected "Please upload a PDF file"
  /\ forall e, e = App.drop k (file :: others) \/ e = App.pick k (file :: others) ->
       let a' := App.step e a in
       Page.state (App.page a') = Page.state (App.page a)
       /\ App.alerts a' = (App.alerts a ++ ["Please upload a PDF file"])%list
       /\ App.readers a' = App.readers a
       /\ FileUpload.isLoading (App.fileUpload a')
          = FileUpload.isLoading (App.fileUpload a).
Proof.
  intros Ht. split; [|split].
  - intros c. by apply handleFile_wrong_type.
  - by rewrite handleFile_wrong_type.
  - intros e [-> | ->]; cbv zeta;
      unfold App.step, App.handle, App.inFileUpload,
        FileUpload.handleDrop, FileUpload.input_onChange;
      cbn [lookup list_lookup]; rewrite handleFile_wrong_type by done;
      cbn; repeat split.
Qed.

Lemma wrong_type_rejected_without_state_change_witness :
  FileUpload.type notes <> "application/pdf"
  /\ FileUpload.handleFile 0 notes (App.fileUpload App.initial)
     = (App.fileUpload App.initial, [FileUpload.alert "Please upload a PDF file"])
  /\ Page.state (App.page (App.step (App.drop 0 [notes]) (App.renders busy App.initial)))
     = busy.
Proof.
  assert (Ht : FileUpload.type notes <> "application/pdf") by discriminate.
  destruct (wrong_type_rejected_without_state_change
              (App.renders busy App.initial) 0 notes [] Ht) as [Hh [_ Hs]].
  split; [exact Ht|]. split; [apply Hh|].
  apply (Hs (App.drop 0 [notes])). left. reflexivity.
Defined.

(** C3. For a file declared [application/pdf]: above 10 MiB
    (10 * 1024 * 1024 bytes) [handleFile] shows the size alert and does
    nothing else, so the shared state stays as it was and no read starts;
    at 10 MiB or below, zero bytes included, it passes validation: no
    alert, the component goes to its loading state and the file is handed
    to the reader for encoding. *)
Theorem pdf_size_limit
    (a : App.t) (k : nat) (file : FileUpload.File)
    (others : list FileUpload.File) :
  FileUpload.type file = "application/pdf" ->
  let r := FileUpload.handleFile k file (App.fileUpload a) in
  let a' := App.step (App.drop k (file :: others)) a in
  ((FileUpload.size file > 10 * 1024 * 1024)%N ->
     r.2 = [FileUpload.alert "File too large. Maximum size is 10MB."]
     /\ r.1 = App.fileUpload a
     /\ FileUpload.outcome r.2
        = FileUpload.rejected "File too large. Maximum size is 10MB."
     /\ Page.state (App.page a') = Page.state (App.page a)
     /\ App.readers a' = App.readers a)
  /\ ((FileUpload.size file <= 10 * 1024 * 1024)%N ->
        r.2 = [FileUpload.readAsDataURL file]
        /\ FileUpload.isLoading r.1 = true
        /\ FileUpload.outcome r.2 = FileUpload.accepted
        /\ App.alerts a' = App.alerts a
        /\ App.readers a' = (App.readers a ++ [file])%list
        /\ FileUpload.isLoading (App.fileUpload a') = true)
  /\ (FileUpload.size file = 0%N ->
        FileUpload.outcome r.2 = FileUpload.accepted
        /\ App.readers a' = (App.readers a ++ [file])%list).
Proof.
  intros Ht r a'. subst r a'.
  unfold App.step, App.handle, App.inFileUpload, FileUpload.handleDrop.
  cbn [lookup list_lookup].
  split; [|split].
  - intros Hs. apply N.gt_lt in Hs.
    rewrite !handleFile_too_large by done. cbn. repeat split.
  - intros Hs. rewrite !handleFile_fits by done. cbn. repeat split.
  - intros Hs.
    assert (Hle : (FileUpload.size file <= FileUpload.MAX_SIZE)%N)
      by (rewrite Hs; apply N.le_0_l).
    rewrite !handleFile_fits by done. cbn. repeat split.
Qed.

Lemma pdf_size_limit_witness :
  (FileUpload.type huge = "application/pdf"
   /\ (FileUpload.size huge > 10 * 1024 * 1024)%N
   /\ Page.state (App.page (App.step (App.drop 1 [huge]) (App.renders busy App.initial)))
      = busy)
  /\ (FileUpload.type limit = "application/pdf"
      /\ (FileUpload.size limit <= 10 * 1024 * 1024)%N
      /\ (FileUpload.handleFile 1 limit (App.fileUpload App.initial)).2
         = [FileUpload.readAsDataURL limit])
  /\ (FileUpload.type empty = "application/pdf"
      /\ FileUpload.size empty = 0%N
      /\ App.readers (App.step (App.drop 1 [empty]) App.initial) = [empty]).
Proof.
  split; [|split].
  - split; [reflexivity|]. split; [reflexivity|].
    apply (pdf_size_limit (App.renders busy App.initial) 1 huge []);
      reflexivity.
  - split; [reflexivity|]. split; [vm_compute; discriminate|].
    apply (pdf_size_limit App.initial 1 limit []);
      [reflexivity | vm_compute; discriminate].
  - split; [reflexivity|]. split; [reflexivity|].
    apply (pdf_size_limit App.initial 1 empty []); reflexivity.
Defined.

(** C9. The accept/reject decision reads the declared type and the size
    only: two files that agree on both get the same outcome (accepted, or
    rejected with the same alert), whatever their names, the random index
    and the cells of the component. *)
Theorem outcome_depends_on_type_and_size
    (f1 f2 : FileUpload.File) (k1 k2 : nat) (c1 c2 : FileUpload.t) :
  FileUpload.type f1 = FileUpload.type f2 ->
  FileUpload.size f1 = FileUpload.size f2 ->
  FileUpload.outcome (FileUpload.handleFile k1 f1 c1).2
  = FileUpload.outcome (FileUpload.handleFile k2 f2 c2).2.
Proof.
  intros Ht Hs. unfold FileUpload.handleFile. rewrite Ht, Hs.
  destruct (decide (FileUpload.type f2 <> "application/pdf")); [reflexivity|].
  destruct (FileUpload.MAX_SIZE <? FileUpload.size f2)%N; reflexivity.
Qed.

Lemma outcome_depends_on_type_and_size_witness :
  FileUpload.name report <> FileUpload.name report_txt
  /\ FileUpload.outcome
       (FileUpload.handleFile 0 report (App.fileUpload App.initial)).2
     = FileUpload.outcome
         (FileUpload.handleFile 4 report_txt
            (FileUpload.mk true false "x")).2.
Proof.
  split; [discriminate|].
  apply (outcome_depends_on_type_and_size report report_txt); reflexivity.
Defined.

(** ** The proposal card *)

Section ProposalCard.
Import React ToolCards ToolCards.AnalysisProposalCard ProposalCardFacts.
Implicit Types (props : Props) (responded : t).

Lemma items_bind_nothing (l : list string) :
  flat_map handlers (map item l) = [].
Proof. induction l as [|x l IH]; [reflexivity|]. cbn. exact IH. Qed.

Lemma items_show_analyses (l : list string) :
  flat_map texts (map item l) = l.
Proof. induction l as [|x l IH]; [reflexivity|]. cbn. by rewrite IH. Qed.

(** Only the response area of the card binds handlers. *)
Lemma handlers_render props responded :
  handlers (render props responded) = handlers (responseArea responded).
Proof.
  unfold render. cbn [handlers flat_map app].
  fold item. rewrite items_bind_nothing. cbn [app].
  by rewrite app_nil_r.
Qed.

Lemma texts_render props responded :
  texts (render props responded)
  = (["Investigation Proposal"; "Ready to analyze "; fileName props;
      "Proposed analyses:"]
     ++ proposedAnalyses props ++ texts (responseArea responded))%list.
Proof.
  unfold render. cbn [texts flat_map app].
  fold item. rewrite items_show_analyses. cbn [app].
  by rewrite !app_nil_r.
Qed.

Lemma click_answered props (n : nat) (r : Response) :
  click props n (Some r) = (Some r, []).
Proof.
  unfold click. rewrite handlers_render. by destruct r.
Qed.

Lemma click_unanswered props (n : nat) :
  click props n None
  = match buttonAt n with
    | Some r => (Some r, callsOf props (Some r))
    | None => (None, [])
    end.
Proof.
  unfold click. rewrite handlers_render.
  destruct n as [|[|n]]; reflexivity.
Qed.

Lemma interact_answered props (clicks : list nat) (r : Response) :
  interact props clicks (Some r) = (Some r, []).
Proof.
  induction clicks as [|n clicks IH]; [reflexivity|].
  cbn [interact]. by rewrite click_answered, IH.
Qed.

Lemma interact_unanswered props (clicks : list nat) :
  interact props clicks None
  = (firstResponse clicks, callsOf props (firstResponse clicks)).
Proof.
  induction clicks as [|n clicks IH]; [reflexivity|].
  cbn [interact firstResponse]. rewrite click_unanswered.
  destruct (buttonAt n) as [r|].
  - rewrite interact_answered. by rewrite app_nil_r.
  - by rewrite IH.
Qed.

Lemma firstResponse_app (before after : list nat) (r : Response) :
  firstResponse before = Some r -> firstResponse (before ++ after) = Some r.
Proof.
  induction before as [|n before IH]; [discriminate|].
  cbn [firstResponse app]. destruct (buttonAt n); auto.
Qed.
End ProposalCard.

(** C7. Once the card holds a response, no sequence of clicks changes it
    or calls a prop again: the tree binds no handler (both buttons are
    gone) and ends with the confirmation of that response. From the
    unanswered card, any sequence of clicks leaves the card with the
    first response of the sequence and calls at most the one prop of that
    response; so a response, once given, stays whatever is clicked
    next. *)
Theorem proposal_response_is_final
    (props : ToolCards.AnalysisProposalCard.Props) (clicks : list nat) :
  (forall r : ToolCards.AnalysisProposalCard.Response,
     ToolCards.AnalysisProposalCard.interact props clicks (Some r) = (Some r, [])
     /\ React.handlers (ToolCards.AnalysisProposalCard.render props (Some r)) = []
     /\ React.texts (ToolCards.AnalysisProposalCard.render props (Some r))
        = (["Investigation Proposal"; "Ready to analyze ";
            ToolCards.AnalysisProposalCard.fileName props; "Proposed analyses:"]
           ++ ToolCards.AnalysisProposalCard.proposedAnalyses props
           ++ [ProposalCardFacts.confirmation r])%list)
  /\ ToolCards.AnalysisProposalCard.interact props clicks
       ToolCards.AnalysisProposalCard.initial
     = (ProposalCardFacts.firstResponse clicks,
        ProposalCardFacts.callsOf props (ProposalCardFacts.firstResponse clicks))
  /\ forall (more : list nat) (r : ToolCards.AnalysisProposalCard.Response),
       (ToolCards.AnalysisProposalCard.interact props clicks
          ToolCards.AnalysisProposalCard.initial).1 = Some r ->
       (ToolCards.AnalysisProposalCard.interact props (clicks ++ more)
          ToolCards.AnalysisProposalCard.initial).1 = Some r.
Proof.
  split; [|split].
  - intros r. split; [apply interact_answered|]. split.
    + rewrite handlers_render. by destruct r.
    + rewrite texts_render. by destruct r.
  - apply interact_unanswered.
  - intros more r. unfold ToolCards.AnalysisProposalCard.initial.
    rewrite !interact_unanswered. cbn [fst]. apply firstResponse_app.
Qed.

Lemma proposal_response_is_final_witness :
  (ToolCards.AnalysisProposalCard.interact sampleProposal [5; 1]
     ToolCards.AnalysisProposalCard.initial).1
  = Some ToolCards.AnalysisProposalCard.denied
  /\ (ToolCards.AnalysisProposalCard.interact sampleProposal ([5; 1] ++ [0; 0; 1])
        ToolCards.AnalysisProposalCard.initial).1
     = Some ToolCards.AnalysisProposalCard.denied.
Proof.
  split; [reflexivity|].
  apply (proposal_response_is_final sampleProposal [5; 1]). reflexivity.
Defined.

Example proposal_calls_once :
  ToolCards.AnalysisProposalCard.interact sampleProposal [0; 1; 0; 1]
    ToolCards.AnalysisProposalCard.initial
  = (Some ToolCards.AnalysisProposalCard.approved,
     [ToolCards.AnalysisProposalCard.call_onApprove]).
Proof. reflexivity. Qed.

(** ** The default tool card *)

(** C8. For a tool call of any name, the fallback card shows the name as
    given and the status; collapsed it shows nothing else, expanded it
    shows the arguments and, exactly when the result is neither
    [undefined] nor [null], the result. The badge carries the green
    classes if and only if the status is [complete]. The card binds one
    handler, and a click on it expands the collapsed card. *)
Theorem default_card_shows_call
    (V : Type) (JSON_stringify : V -> string) (call : App.ToolCall V)
    (expanded : bool) :
  let props := App.useDefaultTool_render call in
  let tree := ToolCards.DefaultToolCard.render JSON_stringify props expanded in
  React.texts tree
  = (App.name call :: ToolCards.Status_string (App.status call)
     :: if expanded then
          "Arguments:" :: JSON_stringify (App.args call)
          :: match App.result call with
             | ToolCards.value v => ["Result:"; JSON_stringify v]
             | _ => []
             end
        else [])
  /\ (In "text-xs px-2 py-0.5 rounded-full bg-green-100 text-green-700"
        (React.classes tree)
      <-> App.status call = ToolCards.complete)
  /\ (In "text-xs px-2 py-0.5 rounded-full bg-blue-100 text-blue-700"
        (React.classes tree)
      <-> App.status call <> ToolCards.complete)
  /\ React.handlers tree = [ToolCards.DefaultToolCard.toggle]
  /\ ToolCards.DefaultToolCard.click JSON_stringify props 0
       ToolCards.DefaultToolCard.initial = true.
Proof.
  destruct call as [name status args result]. cbv zeta.
  split; [|split; [|split; [|split]]].
  - destruct expanded, result; reflexivity.
  - destruct status, expanded, result; cbn;
      (split; [intros H; repeat (destruct H as [H|H]; try discriminate H);
               try reflexivity; try contradiction
              | intros H; try discriminate H; tauto]).
  - destruct status, expanded, result; cbn;
      (split; [intros H; repeat (destruct H as [H|H]; try discriminate H);
               try discriminate; try contradiction
              | intros H; try (exfalso; by apply H); tauto]).
  - destruct expanded, result; reflexivity.
  - reflexivity.
Qed.

(** * Further properties of the code *)

(** ** [split] and the payload of a data URL *)

Lemma split_not_nil sep s : FileUpload.split sep s <> [].
Proof.
  destruct s as [|c s]; cbn; [done|].
  case_decide; [done|]. by destruct (FileUpload.split sep s).
Qed.

Lemma split_cons_other sep c s :
  c <> sep ->
  exists h tl, FileUpload.split sep s = h :: tl
               /\ FileUpload.split sep (String c s) = String c h :: tl.
Proof.
  intros Hc. cbn. rewrite decide_False by done.
  destruct (FileUpload.split sep s) as [|h tl] eqn:E.
  - by destruct (split_not_nil sep s).
  - by exists h, tl.
Qed.

Lemma join_cons_cons sep x y l :
  join sep (x :: y :: l) = (x ++ String sep (join sep (y :: l)))%string.
Proof. reflexivity. Qed.

(** X1. Joining the parts of a string with the separator gives the string
    back. *)
Theorem join_split (sep : ascii) (s : string) :
  join sep (FileUpload.split sep s) = s.
Proof.
  induction s as [|c s IH]; [reflexivity|].
  destruct (decide (c = sep)) as [->|Hc].
  - cbn [FileUpload.split]. rewrite decide_True by done.
    destruct (FileUpload.split sep s) as [|h tl] eqn:E.
    + by destruct (split_not_nil sep s).
    + rewrite join_cons_cons, IH. reflexivity.
  - destruct (split_cons_other sep c s Hc) as (h & tl & E1 & E2).
    rewrite E2. rewrite E1 in IH. destruct tl as [|y tl].
    + cbn in *. by rewrite IH.
    + rewrite join_cons_cons in IH |- *. rewrite <- IH. reflexivity.
Qed.

Lemma free_cons c a s : free c (String a s) <-> a <> c /\ free c s.
Proof. unfold free. cbn. tauto. Qed.

Lemma split_free sep s : free sep s -> FileUpload.split sep s = [s].
Proof.
  induction s as [|c s IH]; [reflexivity|].
  intros [Hc Hs]%free_cons. cbn. rewrite decide_False by done.
  by rewrite IH.
Qed.

Lemma split_app sep x r :
  free sep x ->
  FileUpload.split sep (x ++ String sep r) = x :: FileUpload.split sep r.
Proof.
  induction x as [|c x IH].
  - intros _. change ("" ++ String sep r) with (String sep r).
    cbn [FileUpload.split]. by rewrite decide_True.
  - intros [Hc Hx]%free_cons.
    change (String c x ++ String sep r) with (String c (x ++ String sep r)).
    cbn [FileUpload.split]. rewrite decide_False by done. by rewrite IH.
Qed.

(** X2. Splitting what [join] made of parts that are free of the separator
    gives the parts back. *)
Theorem split_join (sep : ascii) (x : string) (rest : list string) :
  Forall (free sep) (x :: rest) ->
  FileUpload.split sep (join sep (x :: rest)) = x :: rest.
Proof.
  revert x. induction rest as [|y rest IH]; intros x H.
  - apply split_free. by inversion H.
  - rewrite join_cons_cons. inversion H as [|? ? Hx Hrest]; subst.
    rewrite split_app by done. by rewrite IH.
Qed.

Lemma split_join_witness :
  Forall (free ","%char) ["data:application/pdf;base64"; "QUJD"]
  /\ FileUpload.split ","%char
       (join ","%char ["data:application/pdf;base64"; "QUJD"])
     = ["data:application/pdf;base64"; "QUJD"].
Proof.
  assert (H : Forall (free ","%char) ["data:application/pdf;base64"; "QUJD"]).
  { repeat constructor; unfold free; cbn; intros Hin;
      repeat (destruct Hin as [Hin|Hin]; [discriminate Hin|]); exact Hin. }
  split; [exact H|]. exact (split_join _ _ _ H).
Defined.

Lemma split_second_none sep s :
  FileUpload.split sep s !! 1%nat = None <-> free sep s.
Proof.
  split.
  - induction s as [|c s IH]; [intros _ []|].
    destruct (decide (c = sep)) as [->|Hc].
    + cbn [FileUpload.split]. rewrite decide_True by done.
      destruct (FileUpload.split sep s) eqn:E; [|discriminate].
      by destruct (split_not_nil sep s).
    + destruct (split_cons_other sep c s Hc) as (h & tl & E1 & E2).
      rewrite E2. rewrite E1 in IH. intros H.
      apply free_cons. split; [done|]. by apply IH.
  - intros H. by rewrite split_free.
Qed.

(** X3. When a read ends with a data URL made of a header without comma, a
    comma and a payload without comma, [onload] leaves the loading state
    and calls [onFileUpload] once, with the name and type of the file and
    the payload as [base64]. *)
Theorem onload_uploads_payload
    (file : FileUpload.File) (header payload : string) (c : FileUpload.t) :
  free ","%char header ->
  free ","%char payload ->
  FileUpload.reader_onload file (header ++ String ","%char payload) c
  = (FileUpload.setIsLoading false c,
     [FileUpload.onFileUpload
        (Some {| UploadedFile.name := FileUpload.name file;
                 UploadedFile.base64 := Some payload;
                 UploadedFile.mimeType := FileUpload.type file |})]).
Proof.
  intros Hh Hp. unfold FileUpload.reader_onload.
  rewrite split_app by done. by rewrite split_free.
Qed.

Lemma free_comma_base64 : free ","%char "QUJD".
Proof.
  unfold free; cbn; intros Hin;
    repeat (destruct Hin as [Hin|Hin]; [discriminate Hin|]); exact Hin.
Defined.

Lemma free_comma_header : free ","%char "data:application/pdf;base64".
Proof.
  unfold free; cbn; intros Hin;
    repeat (destruct Hin as [Hin|Hin]; [discriminate Hin|]); exact Hin.
Defined.

Lemma onload_uploads_payload_witness :
  FileUpload.reader_onload report "data:application/pdf;base64,QUJD"
    (FileUpload.mk false true "Checking flight logs...")
  = (FileUpload.mk false false "Checking flight logs...",
     [FileUpload.onFileUpload
        (Some (UploadedFile.mk "report.pdf" (Some "QUJD") "application/pdf"))]).
Proof.
  exact (onload_uploads_payload report "data:application/pdf;base64" "QUJD"
           (FileUpload.mk false true "Checking flight logs...")
           free_comma_header free_comma_base64).
Defined.

(** X4. The file reaches the shared state without payload exactly when the
    data URL holds no comma: [onload] never turns a result down, it calls
    [onFileUpload] whatever the reader hands over. *)
Theorem onload_never_rejects
    (file : FileUpload.File) (result : string) (c : FileUpload.t) :
  exists base64 : option string,
    (FileUpload.reader_onload file result c).2
    = [FileUpload.onFileUpload
         (Some {| UploadedFile.name := FileUpload.name file;
                  UploadedFile.base64 := base64;
                  UploadedFile.mimeType := FileUpload.type file |})]
    /\ (base64 = None <-> free ","%char result).
Proof.
  eexists. split; [reflexivity|]. apply split_second_none.
Qed.

(** ** Drops *)

Lemma handleFile_cases k f c :
  (exists m, FileUpload.handleFile k f c = (c, [FileUpload.alert m])
             /\ ~ passes f)
  \/ (passes f
      /\ FileUpload.handleFile k f c
         = (FileUpload.setLoadingMessage
              (default "" (FileUpload.LOADING_MESSAGES !! k))
              (FileUpload.setIsLoading true c),
            [FileUpload.readAsDataURL f])).
Proof.
  destruct (decide (FileUpload.type f = "application/pdf")) as [Ht|Ht].
  - destruct (decide (FileUpload.size f <= FileUpload.MAX_SIZE)%N) as [Hs|Hs].
    + right. split; [done|]. by apply handleFile_fits.
    + left. eexists. split; [apply handleFile_too_large; [done|lia]|].
      by intros [_ ?].
  - left. eexists. split; [by apply handleFile_wrong_type|]. by intros [? _].
Qed.

Lemma handleFile_isDragging k f c :
  FileUpload.isDragging (FileUpload.handleFile k f c).1 = FileUpload.isDragging c.
Proof.
  destruct (handleFile_cases k f c) as [(m & -> & _)|[_ ->]]; reflexivity.
Qed.

(** X5. A drop looks at its first file only: the other files change nothing.
    A drop without file does nothing outside the component. Every drop
    ends the dragging state. *)
Theorem handleDrop_first_file_only
    (k : nat) (file : FileUpload.File) (others files : list FileUpload.File)
    (c : FileUpload.t) :
  FileUpload.handleDrop k (file :: others) c = FileUpload.handleDrop k [file] c
  /\ (FileUpload.handleDrop k [] c).2 = []
  /\ FileUpload.isDragging (FileUpload.handleDrop k files c).1 = false
  /\ FileUpload.isLoading (FileUpload.handleDrop k [] c).1
     = FileUpload.isLoading c.
Proof.
  split; [reflexivity|]. split; [reflexivity|]. split; [|reflexivity].
  unfold FileUpload.handleDrop. destruct files as [|f fs]; [reflexivity|].
  cbn [lookup list_lookup]. by rewrite handleFile_isDragging.
Qed.

(** ** What events do to the page *)

Section Steps.
Implicit Types (a : App.t) (e : App.Event) (s : FileInvestigatorState.t).

(** A handler of the upload area whose outputs hold no call of
    [onFileUpload] leaves the page as it was. *)
Lemma inFileUpload_handleFile_page k f a c :
  App.page
    (let '(c', outs) := FileUpload.handleFile k f c in
     foldl App.fileUpload_out
       {| App.page := App.page a; App.fileUpload := c';
          App.tweetsPanel := App.tweetsPanel a; App.alerts := App.alerts a;
          App.readers := App.readers a |} outs)
  = App.page a.
Proof.
  destruct (handleFile_cases k f c) as [(m & -> & _)|[_ ->]]; reflexivity.
Qed.

Lemma handle_drop_page k files a :
  App.page (App.handle (App.drop k files) a) = App.page a.
Proof.
  unfold App.handle, App.inFileUpload, FileUpload.handleDrop.
  destruct files as [|f fs]; [reflexivity|]. cbn [lookup list_lookup].
  apply inFileUpload_handleFile_page.
Qed.

Lemma handle_pick_page k files a :
  App.page (App.handle (App.pick k files) a) = App.page a.
Proof.
  unfold App.handle, App.inFileUpload, FileUpload.input_onChange.
  destruct files as [|f fs]; [reflexivity|]. cbn [lookup list_lookup].
  apply inFileUpload_handleFile_page.
Qed.

(** The state after a step, event by event. *)
Lemma state_step e a :
  Page.state (App.page (App.step e a))
  = match e with
    | App.clear => Page.state (Page.handleFileUpload None (App.page a))
    | App.loaded i result =>
        match App.readers a !! i with
        | Some f =>
            Page.state
              (Page.handleFileUpload (Some (uploadOf f result)) (App.page a))
        | None => Page.state (App.page a)
        end
    | App.save id =>
        Page.withTweets (Page.stateRef_current (App.page a))
          (Page.replaceContent id (TweetsPanel.editContent (App.tweetsPanel a))
             <$> tweets (Page.stateRef_current (App.page a)))
    | App.post tweet =>
        Page.withTweets (Page.stateRef_current (App.page a))
          (Page.markPosted (Tweet.id tweet)
             <$> tweets (Page.stateRef_current (App.page a)))
    | _ => Page.state (App.page a)
    end.
Proof.
  destruct e; try reflexivity.
  - unfold App.step. cbn [App.onPage App.page Page.useEffect_stateRef Page.state].
    by rewrite handle_drop_page.
  - unfold App.step. cbn [App.onPage App.page Page.useEffect_stateRef Page.state].
    by rewrite handle_pick_page.
  - unfold App.step, App.handle, App.readerLoads.
    destruct (App.readers a !! i); reflexivity.
  - unfold App.step, App.handle, App.timerFires.
    destruct (Page.timers (App.page a) !! i) as [[[] ms]|]; reflexivity.
Qed.

Lemma step_settled e a : settled (App.step e a).
Proof. reflexivity. Qed.

Lemma steps_cons e es a : App.steps (e :: es) a = App.steps es (App.step e a).
Proof. reflexivity. Qed.

Lemma steps_settled es a : settled a -> settled (App.steps es a).
Proof.
  revert a. induction es as [|e es IH]; intros a H; [done|].
  rewrite steps_cons. apply IH, step_settled.
Qed.

Lemma withTweets_same s : Page.withTweets s (tweets s) = s.
Proof. by destruct s. Qed.

Lemma noNewContent_refl s : noNewContent s s.
Proof. unfold noNewContent. tauto. Qed.

Lemma noNewContent_step s e a :
  settled a ->
  noNewContent s (Page.state (App.page a)) ->
  noNewContent s (Page.state (App.page (App.step e a))).
Proof.
  intros Hset H. rewrite state_step. unfold settled in Hset.
  destruct e; try exact H.
  - unfold noNewContent; cbn; tauto.
  - destruct (App.readers a !! i); [|exact H].
    unfold noNewContent; cbn; tauto.
  - rewrite Hset. destruct H as (H1 & H2 & H3 & H4 & H5).
    repeat split; try assumption. cbn.
    destruct H5 as [H5|H5]; [left|right].
    + rewrite <- H5. apply fmap_keeps, replaceContent_id.
    + by rewrite H5.
  - rewrite Hset. destruct H as (H1 & H2 & H3 & H4 & H5).
    repeat split; try assumption. cbn.
    destruct H5 as [H5|H5]; [left|right].
    + rewrite <- H5. apply fmap_keeps, markPosted_id.
    + by rewrite H5.
Qed.
End Steps.

(** X6. Nothing the user or the browser does adds analysis content. From a
    rendered state [s], after any sequence of events, the findings, the
    redacted items, the summary and the status are those of [s] or have
    been reset by an upload, and the tweets are none or carry the ids of
    [s] in the same places. *)
Theorem events_add_no_content
    (es : list App.Event) (s : FileInvestigatorState.t) (a : App.t) :
  noNewContent s (Page.state (App.page (App.steps es (App.renders s a)))).
Proof.
  assert (H : forall es b, settled b ->
                noNewContent s (Page.state (App.page b)) ->
                noNewContent s (Page.state (App.page (App.steps es b)))).
  { clear es. induction es as [|e es IH]; intros b Hb H; [exact H|].
    rewrite steps_cons. apply IH; [apply step_settled|].
    by apply noNewContent_step. }
  apply H; [reflexivity|apply noNewContent_refl].
Qed.

(** ** What file intake lets through *)

Section Intake.
Implicit Types (a : App.t) (e : App.Event).

(** The upload component and the pending reads after a drop or a pick of
    a first file [f]. *)
Lemma inFileUpload_handleFile k f a c :
  let a' :=
    (let '(c', outs) := FileUpload.handleFile k f c in
     foldl App.fileUpload_out
       {| App.page := App.page a; App.fileUpload := c';
          App.tweetsPanel := App.tweetsPanel a; App.alerts := App.alerts a;
          App.readers := App.readers a |} outs) in
  (~ passes f /\ App.readers a' = App.readers a /\ App.fileUpload a' = c)
  \/ (passes f /\ App.readers a' = (App.readers a ++ [f])%list
      /\ FileUpload.isLoading (App.fileUpload a') = true).
Proof.
  destruct (handleFile_cases k f c) as [(m & -> & Hn)|[Hp ->]]; cbn.
  - by left.
  - by right.
Qed.

Lemma readers_step e a :
  Forall passes (App.readers a) -> Forall passes (App.readers (App.step e a)).
Proof.
  intros H. destruct e; try exact H.
  - unfold App.step, App.handle, App.inFileUpload, FileUpload.handleDrop.
    destruct files as [|f fs]; [exact H|]. cbn [lookup list_lookup].
    cbn [App.onPage App.readers].
    destruct (inFileUpload_handleFile k f a
                (FileUpload.setIsDragging false (App.fileUpload a)))
      as [(_ & -> & _)|(Hp & -> & _)]; [exact H|].
    apply Forall_app. split; [exact H|]. by constructor.
  - unfold App.step, App.handle, App.inFileUpload, FileUpload.input_onChange.
    destruct files as [|f fs]; [exact H|]. cbn [lookup list_lookup].
    cbn [App.onPage App.readers].
    destruct (inFileUpload_handleFile k f a (App.fileUpload a))
      as [(_ & -> & _)|(Hp & -> & _)]; [exact H|].
    apply Forall_app. split; [exact H|]. by constructor.
  - unfold App.step, App.handle, App.readerLoads.
    destruct (App.readers a !! i) eqn:E; [|exact H].
    cbn. by apply Forall_delete.
  - unfold App.step, App.handle, App.timerFires.
    destruct (Page.timers (App.page a) !! i) as [[[] ms]|]; exact H.
Qed.

Lemma onlyPdfs_step e a : onlyPdfs a -> onlyPdfs (App.step e a).
Proof.
  intros (Hset & Hr & Hu). split; [apply step_settled|].
  split; [by apply readers_step|].
  rewrite state_step. unfold settled in Hset.
  destruct e; try exact Hu.
  - cbn. discriminate.
  - destruct (App.readers a !! i) as [f|] eqn:E; [|exact Hu].
    cbn. intros u [= <-]. cbn.
    apply (Forall_lookup_1 _ _ _ _ Hr E).
  - rewrite Hset. exact Hu.
  - rewrite Hset. exact Hu.
Qed.

Lemma isLoading_step e a :
  endsRead e = false ->
  FileUpload.isLoading (App.fileUpload a) = true ->
  FileUpload.isLoading (App.fileUpload (App.step e a)) = true.
Proof.
  intros He H. destruct e; try discriminate He; try exact H.
  - unfold App.step, App.handle, App.inFileUpload, FileUpload.handleDrop.
    destruct files as [|f fs]; [exact H|]. cbn [lookup list_lookup].
    cbn [App.onPage App.fileUpload].
    destruct (inFileUpload_handleFile k f a
                (FileUpload.setIsDragging false (App.fileUpload a)))
      as [(_ & _ & ->)|(_ & _ & ->)]; [exact H|reflexivity].
  - unfold App.step, App.handle, App.inFileUpload, FileUpload.input_onChange.
    destruct files as [|f fs]; [exact H|]. cbn [lookup list_lookup].
    cbn [App.onPage App.fileUpload].
    destruct (inFileUpload_handleFile k f a (App.fileUpload a))
      as [(_ & _ & ->)|(_ & _ & ->)]; [exact H|reflexivity].
  - unfold App.step, App.handle, App.timerFires.
    destruct (Page.timers (App.page a) !! i) as [[[] ms]|]; exact H.
Qed.
End Intake.

(** X7. Whatever happens, a file is handed to a reader only after it passed
    validation, and the file stored by intake is declared a PDF: if this
    holds of a dashboard whose ref is in line with its state (any rendered
    dashboard), then all of it, the ref in line included, holds after any
    sequence of events. *)
Theorem intake_stores_only_pdfs (es : list App.Event) (a : App.t) :
  onlyPdfs a -> onlyPdfs (App.steps es a).
Proof.
  revert a. induction es as [|e es IH]; intros a H; [exact H|].
  rewrite steps_cons. by apply IH, onlyPdfs_step.
Qed.

Lemma onlyPdfs_initial : onlyPdfs App.initial.
Proof.
  split; [reflexivity|]. split; [constructor|]. cbn. discriminate.
Defined.

Lemma intake_stores_only_pdfs_witness :
  onlyPdfs App.initial
  /\ onlyPdfs
       (App.steps
          [App.drop 0 [notes]; App.drop 1 [report; notes];
           App.loaded 0 "data:application/pdf;base64,QUJD"]
          App.initial).
Proof.
  split; [exact onlyPdfs_initial|].
  exact (intake_stores_only_pdfs _ _ onlyPdfs_initial).
Defined.

(** X8. The loading state ends with a read and with nothing else: as long as
    no read ends, whatever else happens, the upload area stays in its
    loading state. *)
Theorem loading_lasts_until_a_read_ends (es : list App.Event) (a : App.t) :
  FileUpload.isLoading (App.fileUpload a) = true ->
  Forall (fun e => endsRead e = false) es ->
  FileUpload.isLoading (App.fileUpload (App.steps es a)) = true.
Proof.
  revert a. induction es as [|e es IH]; intros a H Hes; [exact H|].
  inversion Hes as [|? ? He Hrest]; subst.
  rewrite steps_cons. apply IH; [|exact Hrest]. by apply isLoading_step.
Qed.

Lemma loading_lasts_until_a_read_ends_witness :
  FileUpload.isLoading
    (App.fileUpload
       (App.steps [App.dragOver; App.drop 0 [notes]; App.fires 0; App.clear]
          (App.step (App.drop 3 [report]) App.initial)))
  = true.
Proof.
  apply loading_lasts_until_a_read_ends; [reflexivity|].
  repeat constructor.
Defined.

(** ** What the upload area offers *)

Lemma bound_fileUpload kind cur c :
  Dom.bound kind (FileUploadView.render cur c)
  = match cur, kind with
    | Some _, Dom.onClick => [FileUploadView.clear_]
    | Some _, _ => []
    | None, Dom.onClick => []
    | None, Dom.onDrop => [FileUploadView.handleDrop_]
    | None, Dom.onDragOver => [FileUploadView.handleDragOver_]
    | None, Dom.onDragLeave => [FileUploadView.handleDragLeave_]
    | None, Dom.onChange =>
        if FileUpload.isLoading c then [] else [FileUploadView.inputChange_]
    end.
Proof. destruct cur, kind, c as [d [] m]; reflexivity. Qed.

(** X9. While a file is stored, the upload area offers one thing: the clear
    button. No drop and no pick can reach [handleFile]; a stored file
    gives way to another only after it was cleared (or when a read that
    was already under way ends). *)
Theorem stored_file_offers_only_clear
    (a : App.t) (u : UploadedFile.t) (kind : Dom.Kind) (n k : nat)
    (files : list FileUpload.File) :
  uploadedFile (Page.state (App.page a)) = Some u ->
  Screen.eventOf (Screen.onUpload kind n k files) a
  = match kind, n with
    | Dom.onClick, 0 => Some App.clear
    | _, _ => None
    end.
Proof.
  intros Hu. unfold Screen.eventOf, Screen.fileUpload.
  rewrite bound_fileUpload, Hu.
  destruct kind; try reflexivity. by destruct n as [|[|n]].
Qed.

Lemma stored_file_offers_only_clear_witness :
  let a := App.steps [App.drop 0 [report]; App.loaded 0 "data:application/pdf;base64,QUJD"]
             App.initial in
  Screen.eventOf (Screen.onUpload Dom.onDrop 0 1 [second]) a = None
  /\ Screen.act (Screen.onUpload Dom.onDrop 0 1 [second]) a = a.
Proof.
  cbv zeta.
  assert (H : Screen.eventOf (Screen.onUpload Dom.onDrop 0 1 [second])
                (App.steps [App.drop 0 [report];
                            App.loaded 0 "data:application/pdf;base64,QUJD"]
                   App.initial) = None).
  { apply (stored_file_offers_only_clear _
             (UploadedFile.mk "report.pdf" (Some "QUJD") "application/pdf")).
    reflexivity. }
  split; [exact H|]. unfold Screen.act. by rewrite H.
Defined.

Section Drops.
Implicit Types (a : App.t) (f : FileUpload.File).

Lemma readers_drop_passes k f others a :
  passes f ->
  App.readers (App.step (App.drop k (f :: others)) a)
  = (App.readers a ++ [f])%list.
Proof.
  intros Hp. unfold App.step, App.handle, App.inFileUpload, FileUpload.handleDrop.
  cbn [lookup list_lookup]. destruct Hp as [Ht Hs].
  by rewrite handleFile_fits.
Qed.

Lemma isLoading_drop_passes k f others a :
  passes f ->
  FileUpload.isLoading (App.fileUpload (App.step (App.drop k (f :: others)) a))
  = true.
Proof.
  intros Hp. unfold App.step, App.handle, App.inFileUpload, FileUpload.handleDrop.
  cbn [lookup list_lookup]. destruct Hp as [Ht Hs].
  by rewrite handleFile_fits.
Qed.

Lemma delete_absent {A} (l : list A) (i : nat) :
  l !! i = None -> delete i l = l.
Proof.
  revert i. induction l as [|x l IH]; intros [|i] H; try done.
  cbn. f_equal. by apply IH.
Qed.

Lemma readers_loaded i result a :
  App.readers (App.step (App.loaded i result) a) = delete i (App.readers a).
Proof.
  unfold App.step, App.handle, App.readerLoads.
  destruct (App.readers a !! i) eqn:E; [reflexivity|].
  by rewrite delete_absent.
Qed.

Lemma act_drop k files a :
  uploadedFile (Page.state (App.page a)) = None ->
  Screen.act (Screen.onUpload Dom.onDrop 0 k files) a
  = App.step (App.drop k files) a.
Proof.
  intros Hu. unfold Screen.act, Screen.eventOf, Screen.fileUpload.
  by rewrite bound_fileUpload, Hu.
Qed.

Lemma act_readerDone i result a :
  Screen.act (Screen.readerDone i result) a = App.step (App.loaded i result) a.
Proof. reflexivity. Qed.
End Drops.

(** X10. While the first read is under way the drop zone is still on screen
    (only the picker is gone), so a second file can be dropped: both are
    read, and the stored file is that of the read that ends last, not of
    the file dropped last. *)
Theorem last_read_to_end_wins
    (a : App.t) (f1 f2 : FileUpload.File) (o1 o2 : list FileUpload.File)
    (k1 k2 : nat) (r1 r2 : string) :
  uploadedFile (Page.state (App.page a)) = None ->
  App.readers a = [] ->
  passes f1 ->
  passes f2 ->
  let a1 := Screen.act (Screen.onUpload Dom.onDrop 0 k1 (f1 :: o1)) a in
  let a2 := Screen.act (Screen.onUpload Dom.onDrop 0 k2 (f2 :: o2)) a1 in
  (forall n, Screen.eventOf (Screen.onUpload Dom.onChange n k2 (f2 :: o2)) a1
             = None)
  /\ App.readers a2 = [f1; f2]
  /\ uploadedFile
       (Page.state (App.page
          (Screen.acts [Screen.readerDone 0 r1; Screen.readerDone 0 r2] a2)))
     = Some (uploadOf f2 r2)
  /\ uploadedFile
       (Page.state (App.page
          (Screen.acts [Screen.readerDone 1 r2; Screen.readerDone 0 r1] a2)))
     = Some (uploadOf f1 r1).
Proof.
  intros Hu Hr Hp1 Hp2 a1 a2. subst a1 a2.
  rewrite (act_drop k1 _ a Hu).
  set (a1 := App.step (App.drop k1 (f1 :: o1)) a).
  assert (Hu1 : uploadedFile (Page.state (App.page a1)) = None)
    by (subst a1; by rewrite state_step).
  assert (Hr1 : App.readers a1 = [f1])
    by (subst a1; by rewrite readers_drop_passes, Hr).
  rewrite (act_drop k2 _ a1 Hu1).
  set (a2 := App.step (App.drop k2 (f2 :: o2)) a1).
  assert (Hr2 : App.readers a2 = [f1; f2])
    by (subst a2; by rewrite readers_drop_passes, Hr1).
  split; [|split; [exact Hr2|split]].
  - intros n. unfold Screen.eventOf, Screen.fileUpload.
    rewrite bound_fileUpload, Hu1.
    subst a1. by rewrite isLoading_drop_passes.
  - unfold Screen.acts. cbn [foldl flip]. rewrite !act_readerDone.
    rewrite state_step, readers_loaded, Hr2. reflexivity.
  - unfold Screen.acts. cbn [foldl flip]. rewrite !act_readerDone.
    rewrite state_step, readers_loaded, Hr2. reflexivity.
Qed.

Lemma passes_report : passes report.
Proof. split; [reflexivity|]. vm_compute. discriminate. Defined.

Lemma passes_second : passes second.
Proof. split; [reflexivity|]. vm_compute. discriminate. Defined.

Lemma last_read_to_end_wins_witness :
  let a2 := Screen.acts
              [Screen.onUpload Dom.onDrop 0 0 [report];
               Screen.onUpload Dom.onDrop 0 1 [second]]
              App.initial in
  uploadedFile
    (Page.state (App.page
       (Screen.acts [Screen.readerDone 1 "data:application/pdf;base64,Mg==";
                     Screen.readerDone 0 "data:application/pdf;base64,QUJD"]
          a2)))
  = Some (uploadOf report "data:application/pdf;base64,QUJD").
Proof.
  apply (last_read_to_end_wins App.initial report second [] [] 0 1
           "data:application/pdf;base64,QUJD"
           "data:application/pdf;base64,Mg==");
    [reflexivity | reflexivity | exact passes_report | exact passes_second].
Defined.

(** ** Tweets: ids that match nothing, ids that match twice, composition *)

Section TweetEdits.
Implicit Types (t : Tweet.t) (ts : list Tweet.t) (id c : string).

Lemma fmap_id_on ts (f : Tweet.t -> Tweet.t) :
  (forall t, t ∈ ts -> f t = t) -> f <$> ts = ts.
Proof.
  intros H. rewrite <- (list_fmap_id ts) at 2. apply list_fmap_ext.
  intros i t Hi. apply H. by apply list_elem_of_lookup_2 in Hi.
Qed.

Lemma absent_id id t ts : id ∉ (Tweet.id <$> ts) -> t ∈ ts -> Tweet.id t <> id.
Proof.
  intros Hn Ht <-. apply Hn. by apply list_elem_of_fmap_2.
Qed.

(** With ids of their own, two tweets of the list that share an id are
    one tweet. *)
Lemma same_id_same_tweet ts t t' :
  NoDup (Tweet.id <$> ts) -> t ∈ ts -> t' ∈ ts -> Tweet.id t = Tweet.id t' ->
  t = t'.
Proof.
  intros Hnd [i Hi]%list_elem_of_lookup_1 [j Hj]%list_elem_of_lookup_1 Hid.
  assert (i = j) as ->.
  { apply (NoDup_lookup _ i j (Tweet.id t) Hnd).
    - by rewrite list_lookup_fmap, Hi.
    - by rewrite list_lookup_fmap, Hj, Hid. }
  congruence.
Qed.

Lemma replaceContent_own t : Page.replaceContent (Tweet.id t) (Tweet.content t) t = t.
Proof. unfold Page.replaceContent. rewrite decide_True by done. by destruct t. Qed.

Lemma replaceContent_twice id c1 c2 t :
  Page.replaceContent id c2 (Page.replaceContent id c1 t)
  = Page.replaceContent id c2 t.
Proof.
  destruct (decide (Tweet.id t = id)) as [H|H].
  - unfold Page.replaceContent. destruct (decide (Tweet.id t = id)); [|done].
    cbn. by case_match.
  - by rewrite !(replaceContent_miss id _ t H).
Qed.

Lemma markPosted_replaceContent id1 id2 c t :
  Page.markPosted id1 (Page.replaceContent id2 c t)
  = Page.replaceContent id2 c (Page.markPosted id1 t).
Proof.
  unfold Page.markPosted, Page.replaceContent.
  destruct (decide (Tweet.id t = id1)), (decide (Tweet.id t = id2));
    cbn; repeat case_match; try done.
Qed.
End TweetEdits.

(** X11. Saving or posting under an id that no tweet carries leaves the state
    as it was; the post still announces itself in the toast. *)
Theorem unknown_id_changes_nothing
    (a : App.t) (s : FileInvestigatorState.t) (id draft : string)
    (tweet : Tweet.t) :
  id ∉ (Tweet.id <$> tweets s) ->
  Tweet.id tweet = id ->
  Page.state (App.page
    (App.steps [App.typing draft; App.save id] (App.renders s a))) = s
  /\ Page.state (App.page (App.step (App.post tweet) (App.renders s a))) = s
  /\ Page.toastMessage (App.page (App.step (App.post tweet) (App.renders s a)))
     = Some "Tweet posted! The truth is out there.".
Proof.
  intros Hn <-. cbn. split; [|split; [|reflexivity]].
  - rewrite fmap_id_on; [apply withTweets_same|].
    intros t Ht. apply replaceContent_miss. by apply (absent_id _ _ (tweets s)).
  - rewrite fmap_id_on; [apply withTweets_same|].
    intros t Ht. apply markPosted_miss. by apply (absent_id _ _ (tweets s)).
Qed.

Lemma unknown_id_changes_nothing_witness :
  ("t9" ∉ (Tweet.id <$> tweets busy))
  /\ Page.state (App.page
       (App.steps [App.typing "lost"; App.save "t9"]
          (App.renders busy App.initial))) = busy.
Proof.
  assert (H : "t9" ∉ (Tweet.id <$> tweets busy)).
  { cbn. intros Hin. repeat (apply elem_of_cons in Hin as [Hin|Hin];
                              [discriminate Hin|]).
    by apply elem_of_nil in Hin. }
  split; [exact H|].
  apply (unknown_id_changes_nothing App.initial busy "t9" "lost"
           (Tweet.mk "t9" "" false) H eq_refl).
Defined.

(** X12. When the tweets have ids of their own, opening the edit of a tweet of
    the list and saving at once gives the state back. *)
Theorem edit_then_save_gives_state_back
    (a : App.t) (s : FileInvestigatorState.t) (tweet : Tweet.t) :
  NoDup (Tweet.id <$> tweets s) ->
  tweet ∈ tweets s ->
  Page.state (App.page
    (App.steps [App.edit tweet; App.save (Tweet.id tweet)] (App.renders s a)))
  = s.
Proof.
  intros Hnd Hin. cbn. rewrite fmap_id_on; [apply withTweets_same|].
  intros t Ht. destruct (decide (Tweet.id t = Tweet.id tweet)) as [Heq|Hne].
  - rewrite (same_id_same_tweet _ _ _ Hnd Ht Hin Heq). apply replaceContent_own.
  - by apply replaceContent_miss.
Qed.

Lemma edit_then_save_gives_state_back_witness :
  NoDup (Tweet.id <$> tweets calm)
  /\ tw2 ∈ tweets calm
  /\ Page.state (App.page
       (App.steps [App.edit tw2; App.save (Tweet.id tw2)]
          (App.renders calm App.initial))) = calm.
Proof.
  assert (Hnd : NoDup (Tweet.id <$> tweets calm)).
  { cbn. apply NoDup_cons. split.
    - intros Hin. apply elem_of_cons in Hin as [Hin|Hin]; [discriminate Hin|].
      by apply elem_of_nil in Hin.
    - apply NoDup_singleton. }
  assert (Hin : tw2 ∈ tweets calm).
  { cbn. apply elem_of_cons. right. apply elem_of_cons. by left. }
  split; [exact Hnd|]. split; [exact Hin|].
  exact (edit_then_save_gives_state_back App.initial calm tw2 Hnd Hin).
Defined.

(** Without ids of their own this fails: the twin of the edited tweet
    takes its content. *)
Example edit_then_save_overwrites_twin :
  tweets (Page.state (App.page
    (App.steps [App.edit tw1; App.save (Tweet.id tw1)]
       (App.renders busy App.initial))))
  = [tw1; tw2; Tweet.mk "t1" "old text" true].
Proof. reflexivity. Qed.

(** X13. Of two saved edits of the same id the second one stands: the state is
    as if the first had not been made. Posting a tweet and saving an edit
    give the same state in either order. *)
Theorem edits_and_posts_compose
    (a : App.t) (s : FileInvestigatorState.t) (id c1 c2 : string)
    (tweet : Tweet.t) :
  Page.state (App.page
    (App.steps [App.typing c1; App.save id; App.typing c2; App.save id]
       (App.renders s a)))
  = Page.state (App.page
      (App.steps [App.typing c2; App.save id] (App.renders s a)))
  /\ Page.state (App.page
       (App.steps [App.post tweet; App.typing c1; App.save id]
          (App.renders s a)))
     = Page.state (App.page
         (App.steps [App.typing c1; App.save id; App.post tweet]
            (App.renders s a))).
Proof.
  cbn. unfold Page.withTweets; cbn. split; f_equal.
  - rewrite <- list_fmap_compose. apply list_fmap_ext.
    intros _ t _. apply replaceContent_twice.
  - rewrite <- !list_fmap_compose. apply list_fmap_ext.
    intros _ t _. cbn. symmetry. apply markPosted_replaceContent.
Qed.

(** X14. Opening the edit of another tweet drops the draft in progress without
    saving it: the panel is as if only the second edit had been opened,
    and the state is as before. *)
Theorem second_edit_drops_the_draft
    (a : App.t) (one other : Tweet.t) (drafts : list string) :
  let a' := App.steps
              (App.edit one :: (App.typing <$> drafts) ++ [App.edit other])%list
              a in
  App.tweetsPanel a' = App.tweetsPanel (App.step (App.edit other) a)
  /\ TweetsPanel.editingId (App.tweetsPanel a') = Some (Tweet.id other)
  /\ TweetsPanel.editContent (App.tweetsPanel a') = Tweet.content other
  /\ Page.state (App.page a') = Page.state (App.page a).
Proof.
  cbv zeta. unfold App.steps. cbn [foldl app]. rewrite foldl_app.
  cbn [foldl flip].
  assert (Hinv : forall ds b,
             Page.state (App.page (foldl (flip App.step) b (App.typing <$> ds)))
             = Page.state (App.page b)).
  { induction ds as [|d ds IH]; intros b; [reflexivity|].
    rewrite fmap_cons. cbn [foldl]. rewrite IH. reflexivity. }
  cbn. rewrite !Hinv. repeat split.
Qed.

(** ** The toast and its timers *)

(** X15. Timers are never cancelled and every timer clears the toast, whichever
    toast is showing: after a copy and then a post, the timer of the copy
    takes down the toast of the post while the timer of the post is still
    pending. *)
Theorem stale_timer_clears_newer_toast (a : App.t) (copied posted : Tweet.t) :
  let a2 := App.steps [App.copy copied; App.post posted] a in
  let i := List.length (Page.timers (App.page a)) in
  Page.toastMessage (App.page a2)
  = Some "Tweet posted! The truth is out there."
  /\ Page.timers (App.page a2)
     = (Page.timers (App.page a)
        ++ [(Page.clearToast, 2000%N); (Page.clearToast, 2000%N)])%list
  /\ Page.toastMessage (App.page (App.step (App.fires i) a2)) = None
  /\ Page.timers (App.page (App.step (App.fires i) a2))
     = (Page.timers (App.page a) ++ [(Page.clearToast, 2000%N)])%list.
Proof.
  cbv zeta. split; [reflexivity|]. split; [cbn; by rewrite <- app_assoc|].
  unfold App.steps. cbn [foldl flip].
  set (a2 := App.step (App.post posted) (App.step (App.copy copied) a)).
  assert (Ht : Page.timers (App.page a2)
               = (Page.timers (App.page a)
                  ++ (Page.clearToast, 2000%N) :: [(Page.clearToast, 2000%N)])%list)
    by (subst a2; cbn; by rewrite <- app_assoc).
  clearbody a2. unfold App.step, App.handle, App.timerFires.
  rewrite Ht, list_lookup_middle by done.
  cbn. rewrite Ht. split; [reflexivity|]. by rewrite delete_middle.
Qed.

(** ** What the tweets panel offers *)

Section TweetsOnScreen.
Import TweetsPanelView.
Implicit Types (c : TweetsPanel.t) (tw : Tweet.t) (ts : list Tweet.t).

Lemma bound_renderTweet kind c tw :
  Dom.bound kind (renderTweet c tw)
  = match kind with
    | Dom.onClick =>
        if decide (TweetsPanel.editingId c = Some (Tweet.id tw))
        then [cancelEdit_; saveEdit_ (Tweet.id tw)]
        else [startEdit_ tw; copy_ tw; post_ tw]
    | Dom.onChange =>
        if decide (TweetsPanel.editingId c = Some (Tweet.id tw))
        then [change_] else []
    | _ => []
    end.
Proof.
  unfold renderTweet. case_decide; destruct kind, (Tweet.posted tw); reflexivity.
Qed.

Lemma flat_map_map {X Y Z} (f : Y -> list Z) (g : X -> Y) (l : list X) :
  flat_map f (map g l) = flat_map (fun x => f (g x)) l.
Proof. induction l as [|x l IH]; [reflexivity|]. cbn. by rewrite IH. Qed.

Lemma bound_render kind ts c :
  Dom.bound kind (render (Some ts) c)
  = flat_map (fun tw => Dom.bound kind (renderTweet c tw)) ts.
Proof.
  unfold render. destruct ts as [|tw ts]; [by destruct kind|].
  cbn [default List.length]. rewrite decide_False by done.
  cbn [Dom.bound Dom.pick flat_map app].
  rewrite flat_map_map. by rewrite app_nil_r.
Qed.
End TweetsOnScreen.

(** X16. The panel offers, per tweet, either Edit, Copy and Post or, for a
    tweet whose id is the one in edit mode, the textarea with Cancel and
    Save: Save is bound for an id exactly when that id is in edit mode and
    a tweet carries it, and then that tweet offers no Edit, Copy or Post;
    a missing or empty list offers nothing. *)
Theorem tweets_panel_offers (ts : list Tweet.t) (c : TweetsPanel.t) :
  let clicks := Dom.bound Dom.onClick (TweetsPanelView.render (Some ts) c) in
  let changes := Dom.bound Dom.onChange (TweetsPanelView.render (Some ts) c) in
  (forall id, In (TweetsPanelView.saveEdit_ id) clicks
              <-> TweetsPanel.editingId c = Some id
                  /\ exists tw, In tw ts /\ Tweet.id tw = id)
  /\ (In TweetsPanelView.cancelEdit_ clicks
      <-> exists tw, In tw ts /\ TweetsPanel.editingId c = Some (Tweet.id tw))
  /\ (In TweetsPanelView.change_ changes
      <-> exists tw, In tw ts /\ TweetsPanel.editingId c = Some (Tweet.id tw))
  /\ (forall tw, In (TweetsPanelView.startEdit_ tw) clicks
                 <-> In tw ts /\ TweetsPanel.editingId c <> Some (Tweet.id tw))
  /\ (forall tw, In (TweetsPanelView.copy_ tw) clicks
                 <-> In tw ts /\ TweetsPanel.editingId c <> Some (Tweet.id tw))
  /\ (forall tw, In (TweetsPanelView.post_ tw) clicks
                 <-> In tw ts /\ TweetsPanel.editingId c <> Some (Tweet.id tw))
  /\ TweetsPanelView.render None c = TweetsPanelView.render (Some []) c
  /\ forall kind, Dom.bound kind (TweetsPanelView.render None c) = [].
Proof.
  cbv zeta. rewrite !bound_render.
  repeat match goal with |- _ /\ _ => split end.
  - intros id. rewrite in_flat_map. split.
    + intros (tw & Hin & H). rewrite bound_renderTweet in H.
      case_decide as E; cbn in H.
      * destruct H as [H|[H|[]]]; [discriminate H|]. injection H as <-.
        split; [done|]. by exists tw.
      * destruct H as [H|[H|[H|[]]]]; discriminate H.
    + intros (E & tw & Hin & <-). exists tw. split; [done|].
      rewrite bound_renderTweet, decide_True by done. cbn. tauto.
  - rewrite in_flat_map. split.
    + intros (tw & Hin & H). rewrite bound_renderTweet in H.
      case_decide as E; cbn in H.
      * by exists tw.
      * destruct H as [H|[H|[H|[]]]]; discriminate H.
    + intros (tw & Hin & E). exists tw. split; [done|].
      rewrite bound_renderTweet, decide_True by done. cbn. tauto.
  - rewrite in_flat_map. split.
    + intros (tw & Hin & H). rewrite bound_renderTweet in H.
      case_decide as E; cbn in H; [by exists tw|destruct H].
    + intros (tw & Hin & E). exists tw. split; [done|].
      rewrite bound_renderTweet, decide_True by done. cbn. tauto.
  - intros tw0. rewrite in_flat_map. split.
    + intros (tw & Hin & H). rewrite bound_renderTweet in H.
      case_decide as E; cbn in H.
      * destruct H as [H|[H|[]]]; discriminate H.
      * destruct H as [H|[H|[H|[]]]]; try discriminate H.
        injection H as <-. done.
    + intros (Hin & E). exists tw0. split; [done|].
      rewrite bound_renderTweet, decide_False by done. cbn. tauto.
  - intros tw0. rewrite in_flat_map. split.
    + intros (tw & Hin & H). rewrite bound_renderTweet in H.
      case_decide as E; cbn in H.
      * destruct H as [H|[H|[]]]; discriminate H.
      * destruct H as [H|[H|[H|[]]]]; try discriminate H.
        injection H as <-. done.
    + intros (Hin & E). exists tw0. split; [done|].
      rewrite bound_renderTweet, decide_False by done. cbn. tauto.
  - intros tw0. rewrite in_flat_map. split.
    + intros (tw & Hin & H). rewrite bound_renderTweet in H.
      case_decide as E; cbn in H.
      * destruct H as [H|[H|[]]]; discriminate H.
      * destruct H as [H|[H|[H|[]]]]; try discriminate H.
        injection H as <-. done.
    + intros (Hin & E). exists tw0. split; [done|].
      rewrite bound_renderTweet, decide_False by done. cbn. tauto.
  - reflexivity.
  - intros kind. by destruct kind.
Qed.

(** X17. Through the panel a user can only save the tweet in edit mode, only
    cancel or type while a tweet of the list is in edit mode, and only
    open, copy or post a tweet of the list that is not in edit mode. *)
Theorem panel_events_are_offered
    (a : App.t) (kind : Dom.Kind) (n : nat) (value : string) (e : App.Event) :
  Screen.eventOf (Screen.onTweets kind n value) a = Some e ->
  let ts := tweets (Page.state (App.page a)) in
  let editing := TweetsPanel.editingId (App.tweetsPanel a) in
  match e with
  | App.save id =>
      kind = Dom.onClick /\ editing = Some id
      /\ exists tw, In tw ts /\ Tweet.id tw = id
  | App.cancel =>
      kind = Dom.onClick
      /\ exists tw, In tw ts /\ editing = Some (Tweet.id tw)
  | App.typing v =>
      kind = Dom.onChange /\ v = value
      /\ exists tw, In tw ts /\ editing = Some (Tweet.id tw)
  | App.edit tw | App.copy tw | App.post tw =>
      kind = Dom.onClick /\ In tw ts /\ editing <> Some (Tweet.id tw)
  | _ => False
  end.
Proof.
  unfold Screen.eventOf, Screen.tweetsPanel. intros H.
  destruct (Dom.bound kind _ !! n) as [h|] eqn:E; [|discriminate H].
  injection H as <-. apply list_elem_of_lookup_2, list_elem_of_In in E.
  rewrite bound_render in E. apply in_flat_map in E as (tw & Hin & E).
  rewrite bound_renderTweet in E.
  destruct kind; try (by destruct E); case_decide as Hed; cbn in E.
  - destruct E as [<-|[<-|[]]]; cbn.
    + split; [done|]. by exists tw.
    + split; [done|]. split; [done|]. by exists tw.
  - destruct E as [<-|[<-|[<-|[]]]]; by cbn.
  - destruct E as [<-|[]]. cbn. split; [done|]. split; [done|]. by exists tw.
  - destruct E.
Qed.

Lemma panel_events_are_offered_witness :
  let a := App.step (App.edit tw2) (App.renders calm App.initial) in
  Screen.eventOf (Screen.onTweets Dom.onClick 4 "") a = Some (App.save "t2")
  /\ TweetsPanel.editingId (App.tweetsPanel a) = Some "t2".
Proof.
  cbv zeta.
  assert (H : Screen.eventOf (Screen.onTweets Dom.onClick 4 "")
                (App.step (App.edit tw2) (App.renders calm App.initial))
              = Some (App.save "t2")) by reflexivity.
  split; [exact H|].
  exact (proj1 (proj2 (panel_events_are_offered _ _ _ _ _ H))).
Defined.

(** ** The progress cards *)

(** X18. The status card shows its message and nothing else, binds no handler,
    and draws the check mark when the status is [complete] and the spinner
    otherwise. *)
Theorem status_card_shows_message
    (A : Type) (message : string) (toolStatus : ToolCards.Status) :
  let tree : React.Node A := ProgressCards.StatusProgressCard message toolStatus in
  React.texts tree = [message]
  /\ React.handlers tree = []
  /\ ProgressCards.paths tree
     = match toolStatus with
       | ToolCards.complete => ["M5 13l4 4L19 7"]
       | _ => []
       end
  /\ (In "w-4 h-4 border-2 border-indigo-300 border-t-indigo-600 rounded-full animate-spin"
        (React.classes tree)
      <-> toolStatus <> ToolCards.complete).
Proof.
  cbv zeta. destruct toolStatus; cbn; repeat split; try discriminate;
    try tauto; intros H;
    repeat (destruct H as [H|H]; [discriminate H|]); try contradiction;
    try (exfalso; by apply H).
Qed.

(** X19. The analysis card never draws the icon of its table: it draws the
    check mark when the status is [complete] and no icon otherwise. Once
    complete it reads "Complete" under the label, whatever the tool. *)
Theorem analysis_card_draws_no_table_icon
    (A : Type) (proto : string -> bool) (toolName : string)
    (status : ToolCards.Status) :
  let tree : React.Node A :=
    ProgressCards.AnalysisProgressCard proto toolName status in
  ProgressCards.paths tree
  = match status with
    | ToolCards.complete => ["M5 13l4 4L19 7"]
    | _ => []
    end
  /\ React.handlers tree = []
  /\ (status = ToolCards.complete ->
      React.texts tree
      = match ProgressCards.lookupConfig proto toolName with
        | ProgressCards.config c => [ProgressCards.label c; "Complete"]
        | ProgressCards.inherited => ["Complete"]
        end).
Proof.
  cbv zeta. unfold ProgressCards.AnalysisProgressCard.
  destruct (ProgressCards.lookupConfig proto toolName), status;
    cbn; repeat split; discriminate.
Qed.

Lemma analysis_card_draws_no_table_icon_witness :
  React.texts
    (ProgressCards.AnalysisProgressCard (A := Empty_set) Object_prototype_has
       "update_tweets" ToolCards.complete)
  = ["Populating Tweets Panel"; "Complete"].
Proof.
  exact (proj2 (proj2 (analysis_card_draws_no_table_icon Empty_set
                         Object_prototype_has "update_tweets"
                         ToolCards.complete)) eq_refl).
Defined.

Lemma own_unlisted name :
  name ∉ ["update_findings"; "update_redacted"; "update_tweets"; "update_summary"] ->
  ProgressCards.own name ProgressCards.TOOL_CONFIG = None.
Proof.
  intros H. unfold ProgressCards.TOOL_CONFIG. cbn.
  repeat (rewrite decide_False;
          [|intros <-; apply H;
            repeat (first [by apply list_elem_of_here
                          | apply list_elem_of_further])]).
  reflexivity.
Qed.

(** X20. For a tool that is not in the table, the analysis card is labelled
    with the name of the tool and reads "Processing..." until complete;
    unless the name is one that every object inherits a property for:
    then the lookup finds that property instead, and the card shows no
    label and no loading text. *)
Theorem analysis_card_of_unlisted_tool
    (A : Type) (proto : string -> bool) (toolName : string)
    (status : ToolCards.Status) :
  toolName ∉ ["update_findings"; "update_redacted"; "update_tweets";
              "update_summary"] ->
  React.texts
    (ProgressCards.AnalysisProgressCard (A := A) proto toolName status)
  = if proto toolName then
      match status with ToolCards.complete => ["Complete"] | _ => [] end
    else
      [toolName;
       match status with
       | ToolCards.complete => "Complete"
       | _ => "Processing..."
       end].
Proof.
  intros H. unfold ProgressCards.AnalysisProgressCard, ProgressCards.lookupConfig.
  rewrite (own_unlisted _ H). destruct (proto toolName), status; reflexivity.
Qed.

Lemma analysis_card_of_unlisted_tool_witness :
  React.texts
    (ProgressCards.AnalysisProgressCard (A := Empty_set) Object_prototype_has
       "fetch_page" ToolCards.executing)
  = ["fetch_page"; "Processing..."]
  /\ React.texts
       (ProgressCards.AnalysisProgressCard (A := Empty_set) Object_prototype_has
          "toString" ToolCards.executing)
     = [].
Proof.
  split.
  - apply (analysis_card_of_unlisted_tool Empty_set Object_prototype_has
             "fetch_page" ToolCards.executing).
    intros Hin. repeat (apply elem_of_cons in Hin as [Hin|Hin];
                        [discriminate Hin|]).
    by apply elem_of_nil in Hin.
  - apply (analysis_card_of_unlisted_tool Empty_set Object_prototype_has
             "toString" ToolCards.executing).
    intros Hin. repeat (apply elem_of_cons in Hin as [Hin|Hin];
                        [discriminate Hin|]).
    by apply elem_of_nil in Hin.
Defined.

(** ** The findings and summary panels *)

Lemma findings_texts {A} (l : list Finding.t) :
  flat_map React.texts
    (map (fun finding : Finding.t =>
            React.elem (A := A) "div" "border border-slate-100 rounded-lg p-3" None
              [ React.elem "div" "flex items-start justify-between gap-2 mb-1"
                  None
                  [ React.elem "h3" "font-medium text-slate-900" None
                      [ React.text (Finding.title finding) ];
                    React.elem "span"
                      ("text-xs px-2 py-0.5 rounded-full border " ++
                       Panels.SEVERITY_COLORS (Finding.severity finding))
                      None
                      [ React.text
                          (Panels.Severity_string (Finding.severity finding)) ] ];
                React.elem "p" "text-sm text-slate-600" None
                  [ React.text (Finding.description finding) ] ])
       l)
  = flat_map (fun f => [Finding.title f;
                        Panels.Severity_string (Finding.severity f);
                        Finding.description f]) l.
Proof. induction l as [|f l IH]; [reflexivity|]. cbn. by rewrite IH. Qed.

Lemma findings_handlers {A} (l : list Finding.t) :
  flat_map React.handlers
    (map (fun finding : Finding.t =>
            React.elem (A := A) "div" "border border-slate-100 rounded-lg p-3" None
              [ React.elem "div" "flex items-start justify-between gap-2 mb-1"
                  None
                  [ React.elem "h3" "font-medium text-slate-900" None
                      [ React.text (Finding.title finding) ];
                    React.elem "span"
                      ("text-xs px-2 py-0.5 rounded-full border " ++
                       Panels.SEVERITY_COLORS (Finding.severity finding))
                      None
                      [ React.text
                          (Panels.Severity_string (Finding.severity finding)) ] ];
                React.elem "p" "text-sm text-slate-600" None
                  [ React.text (Finding.description finding) ] ])
       l)
  = [].
Proof. induction l as [|f l IH]; [reflexivity|]. cbn. exact IH. Qed.

(** X21. The findings panel shows the findings in the order of the list, each
    with its title, severity and description; a missing list is shown as
    an empty one, with the empty-state line; the panel binds no
    handler. *)
Theorem findings_panel_shows_findings_in_order
    (A : Type) (findings : list Finding.t) :
  React.texts (Panels.FindingsPanel (A := A) (Some findings))
  = ("Key Findings"
     :: match findings with
        | [] => ["Nothing to see here... yet. Move along."]
        | _ => flat_map (fun f => [Finding.title f;
                                   Panels.Severity_string (Finding.severity f);
                                   Finding.description f]) findings
        end)
  /\ React.handlers (Panels.FindingsPanel (A := A) (Some findings)) = []
  /\ Panels.FindingsPanel (A := A) None = Panels.FindingsPanel (Some []).
Proof.
  split; [|split; [|reflexivity]].
  - destruct findings as [|f l]; [reflexivity|].
    unfold Panels.FindingsPanel. cbn [default List.length].
    rewrite decide_False by done. cbn [React.texts flat_map app].
    rewrite findings_texts. by rewrite app_nil_r.
  - destruct findings as [|f l]; [reflexivity|].
    unfold Panels.FindingsPanel. cbn [default List.length].
    rewrite decide_False by done. cbn [React.handlers flat_map app].
    rewrite findings_handlers. reflexivity.
Qed.

(** X22. The summary panel shows the pending line, and does not render the
    summary, exactly when the summary is null or the empty string;
    otherwise it shows the rendered summary under the title. *)
Theorem summary_panel_pending_iff_null_or_empty
    (A : Type) (ReactMarkdown : string -> React.Node A)
    (summary : option string) :
  (Panels.SummaryPanel ReactMarkdown summary
   = Panels.SummaryPanel ReactMarkdown None
   <-> summary = None \/ summary = Some "")
  /\ React.texts (Panels.SummaryPanel ReactMarkdown None)
     = ["Executive Summary";
        "Summary pending. File secured. Unlike some other files..."]
  /\ forall c s, summary = Some (String c s) ->
       React.texts (Panels.SummaryPanel ReactMarkdown summary)
       = ("Executive Summary" :: React.texts (ReactMarkdown (String c s)))%list.
Proof.
  split; [|split].
  - split.
    + destruct summary as [[|c s]|]; auto. intros H. discriminate H.
    + intros [->| ->]; reflexivity.
  - reflexivity.
  - intros c s ->. cbn. by rewrite !app_nil_r.
Qed.

Lemma summary_panel_pending_iff_null_or_empty_witness :
  React.texts
    (Panels.SummaryPanel (A := Empty_set) (fun s => React.text s)
       (Some "# Summary"))
  = ["Executive Summary"; "# Summary"].
Proof.
  exact (proj2 (proj2 (summary_panel_pending_iff_null_or_empty Empty_set
                         (fun s => React.text s) (Some "# Summary")))
           _ _ eq_refl).
Defined.

(** ** Clearing *)

(** X23. Clearing brings the shared state back to [INITIAL_STATE],
    whatever analysis it held: so does the clear event on any dashboard,
    and so does a click on the clear button, which is on screen whenever a
    file is stored. The end of a read, on any dashboard, whether a file
    is stored or not, gives [INITIAL_STATE] with the file read in place
    of no file. *)
Theorem clear_restores_initial_state
    (a : App.t) (k : nat) (files : list FileUpload.File) :
  Page.state (App.page (App.step App.clear a)) = INITIAL_STATE
  /\ (forall u, uploadedFile (Page.state (App.page a)) = Some u ->
       Page.state (App.page
         (Screen.act (Screen.onUpload Dom.onClick 0 k files) a))
       = INITIAL_STATE)
  /\ (forall i result f,
       App.readers a !! i = Some f ->
       Page.state (App.page (Screen.act (Screen.readerDone i result) a))
       = {| uploadedFile := Some (uploadOf f result);
            findings := findings INITIAL_STATE;
            redactedContent := redactedContent INITIAL_STATE;
            tweets := tweets INITIAL_STATE;
            summary := summary INITIAL_STATE;
            analysisStatus := analysisStatus INITIAL_STATE |}).
Proof.
  split; [|split].
  - by rewrite state_step.
  - intros u Hu. unfold Screen.act, Screen.eventOf, Screen.fileUpload.
    rewrite bound_fileUpload, Hu.
    cbn [lookup list_lookup fmap option_fmap option_map].
    by rewrite state_step.
  - intros i result f Hf. rewrite act_readerDone, state_step, Hf. reflexivity.
Qed.

Lemma clear_restores_initial_state_witness :
  (uploadedFile (Page.state (App.page (App.renders busy App.initial)))
   = Some (UploadedFile.mk "a.pdf" (Some "QUJD") "application/pdf")
   /\ Page.state (App.page
        (Screen.act (Screen.onUpload Dom.onClick 0 0 [])
           (App.renders busy App.initial)))
      = INITIAL_STATE)
  /\ (uploadedFile (Page.state (App.page (App.step (App.drop 0 [report]) App.initial)))
      = None
      /\ App.readers (App.step (App.drop 0 [report]) App.initial) !! 0%nat
         = Some report
      /\ Page.state (App.page
           (Screen.act (Screen.readerDone 0 "data:application/pdf;base64,QUJD")
              (App.step (App.drop 0 [report]) App.initial)))
         = {| uploadedFile :=
                Some (UploadedFile.mk "report.pdf" (Some "QUJD") "application/pdf");
              findings := []; redactedContent := []; tweets := [];
              summary := None; analysisStatus := idle |}).
Proof.
  split.
  - split; [reflexivity|].
    apply (proj1 (proj2 (clear_restores_initial_state
                           (App.renders busy App.initial) 0 []))
             (UploadedFile.mk "a.pdf" (Some "QUJD") "application/pdf")).
    reflexivity.
  - split; [reflexivity|]. split; [reflexivity|].
    apply (proj2 (proj2 (clear_restores_initial_state
                           (App.step (App.drop 0 [report]) App.initial) 0 []))
             0%nat "data:application/pdf;base64,QUJD" report).
    reflexivity.
Defined.
